(** * djwarrant: the Cognito authentication backend and its views

    A shallow embedding of [djwarrant/backend.py] and
    [djwarrant/views/profile.py], with the settings of [webapp/settings.py].

    Python dictionaries are finite maps ([gmap]) with string keys.  Code that
    can raise runs in a state-and-exception monad [M]: an exception leaves
    the state as it was when it was raised, as in Python. *)

From stdpp Require Import gmap strings list fin_maps.

Open Scope string_scope.
Set Warnings "-clear-no-such-hyp".

(** ** Python values *)

(** The values that travel through the backend: provider attribute values
    and tokens are strings, column values are strings or booleans; [None]
    is the default of [dict.pop] and [dict.get]. *)
Inductive PyVal : Type :=
| PyNone
| PyBool (b : bool)
| PyStr (s : string).

#[global] Instance PyVal_eq_dec : EqDecision PyVal.
Proof. solve_decision. Defined.

(** Truth value of a Python object in an [if]: [None], [False] and the
    empty string are false. *)
Definition truthy (v : PyVal) : bool :=
  match v with
  | PyNone => false
  | PyBool b => b
  | PyStr s => negb (bool_decide (s = ""))
  end.

(** Truth value of [d.get(k)]. *)
Definition truthy_opt (o : option PyVal) : bool :=
  match o with
  | None => false
  | Some v => truthy v
  end.

Abbreviation attrs := (gmap string PyVal).

(** ** Exceptions *)

(** [botocore.exceptions.ClientError] carries the parsed error response of
    the service in its [response] attribute; [boto3.exceptions.Boto3Error]
    and its subclasses have no such attribute.  [AttributeError] and
    [KeyError] are what attribute access and subscription raise;
    [DoesNotExist], [TypeError], [ValidationError], [ValueError] and
    [IntegrityError] are what the local user model raises.
    [ForeignError] stands for every exception class outside these, such as
    botocore's connection errors. *)
Inductive PyExc : Type :=
| ClientError (response : gmap string (gmap string string))
| Boto3Error (msg : string)
| AttributeError (attr : string)
| KeyError (key : string)
| DoesNotExist
| TypeError
| ValidationError
| ValueError
| IntegrityError
| ForeignError (name : string).

#[global] Instance PyExc_eq_dec : EqDecision PyExc.
Proof. solve_decision. Defined.

(** The outcome of a call: a value or a raised exception. *)
Inductive Res (A : Type) : Type :=
| Return (a : A)
| Raise (e : PyExc).
Arguments Return {A} a.
Arguments Raise {A} e.

(** [error.response] *)
Definition get_response (error : PyExc) : Res (gmap string (gmap string string)) :=
  match error with
  | ClientError response => Return response
  | _ => Raise (AttributeError "response")
  end.

(** [d[k]] *)
Definition getitem {V : Type} (d : gmap string V) (k : string) : Res V :=
  match d !! k with
  | Some v => Return v
  | None => Raise (KeyError k)
  end.

(** The error kind of a provider error, when it is tagged with one:
    [error.response['Error']['Code']]. *)
Definition error_kind (error : PyExc) : option string :=
  match error with
  | ClientError response => response !! "Error" ≫= (.!! "Code")
  | _ => None
  end.

(** The clause [except (Boto3Error, ClientError)]. *)
Definition except_Boto3Error_ClientError (e : PyExc) : bool :=
  match e with
  | ClientError _ | Boto3Error _ => true
  | _ => false
  end.

(** ** [AbstractCognitoBackend.handle_error_response] *)

Definition UNAUTHORIZED_ERROR_CODE : string := "NotAuthorizedException".
Definition USER_NOT_FOUND_ERROR_CODE : string := "UserNotFoundException".

Definition handle_error_response {A : Type} (error : PyExc) : Res (option A) :=
  match get_response error with
  | Raise e => Raise e
  | Return response =>
      match getitem response "Error" with
      | Raise e => Raise e
      | Return err =>
          match getitem err "Code" with
          | Raise e => Raise e
          | Return error_code =>
              if bool_decide (error_code ∈
                    [UNAUTHORIZED_ERROR_CODE; USER_NOT_FOUND_ERROR_CODE])
              then Return None
              else Raise error
          end
      end
  end.

(** ** The request state and the monad *)

(** A Django session object: [cache] is the dictionary the view code reads
    and writes ([request.session[k]]); [stored] is the row the session
    backend holds for this session, [None] when there is none. *)
Record Session : Type := mkSession {
  cache : attrs;
  stored : option attrs
}.

(** The state a request can touch: the table of the local user model, keyed
    by username (a row maps a column name to its value), the session of
    the request, and the messages queued for the next page. *)
Record State : Type := mkState {
  users : gmap string attrs;
  session : Session;
  flash : list string
}.

Definition set_users (f : gmap string attrs → gmap string attrs) (st : State) : State :=
  mkState (f (users st)) (session st) (flash st).
Definition set_session (f : Session → Session) (st : State) : State :=
  mkState (users st) (f (session st)) (flash st).
Definition add_flash (msg : string) (st : State) : State :=
  mkState (users st) (session st) (flash st ++ [msg]).

Definition M (A : Type) : Type := State → Res A * State.

#[global] Instance M_ret : MRet M := λ A a st, (Return a, st).
#[global] Instance M_bind : MBind M := λ A B f m st,
  match m st with
  | (Return a, st') => f a st'
  | (Raise e, st') => (Raise e, st')
  end.

(** A call that does not touch the request state, such as a provider call. *)
Definition call {A : Type} (r : Res A) : M A := λ st, (r, st).
Definition modify (f : State → State) : M unit := λ st, (Return tt, f st).
Definition gets {A : Type} (f : State → A) : M A := λ st, (Return (f st), st).

(** [try: body / except clause as e: return handler(e)], followed by
    [rest] when the body raised nothing.  An exception outside the clause
    propagates. *)
Definition try_except {A B : Type} (body : M A) (clause : PyExc → bool)
    (handler : PyExc → M B) (rest : A → M B) : M B := λ st,
  match body st with
  | (Return a, st') => rest a st'
  | (Raise e, st') => if clause e then handler e st' else (Raise e, st')
  end.

(** ** Session operations (django.contrib.sessions, database backend) *)

(** [request.session[k] = v] *)
Definition session_setitem (k : string) (v : PyVal) : M unit :=
  modify (set_session (λ s, mkSession (<[k := v]> (cache s)) (stored s))).
(** [request.session.save()] *)
Definition session_save : M unit :=
  modify (set_session (λ s, mkSession (cache s) (Some (cache s)))).
(** [request.session.delete()]: removes the stored row. *)
Definition session_delete : M unit :=
  modify (set_session (λ s, mkSession (cache s) None)).
(** [request.session.flush()]: clears the dictionary and removes the row. *)
Definition session_flush : M unit :=
  modify (set_session (λ s, mkSession ∅ None)).
(** [request.session.get(k)] *)
Definition session_get (k : string) : M (option PyVal) :=
  gets (λ st, cache (session st) !! k).

(** The session a later request of the same client sees: its dictionary is
    loaded from the stored row, and is empty when the row is gone. *)
Definition load_session (s : Session) : Session :=
  mkSession (default ∅ (stored s)) (stored s).
Definition next_request (st : State) : State :=
  mkState (users st) (load_session (session st)) [].

(** ** The local user model (django.contrib.auth) *)

(** Why a column does not take a value: the value does not have the form
    of the column's type ([ValidationError], or [ValueError] for a number),
    or the table's constraints refuse it ([IntegrityError]). *)
Inductive Rejection : Type :=
| NotValid
| NotAValue
| Constraint.

#[global] Instance Rejection_eq_dec : EqDecision Rejection.
Proof. solve_decision. Defined.

Definition rejection_error (r : Rejection) : PyExc :=
  match r with
  | NotValid => ValidationError
  | NotAValue => ValueError
  | Constraint => IntegrityError
  end.

(** What the backend meets of [get_user_model()]: the names of
    [_meta.get_fields()]; the values a new row gets in the columns that
    the caller did not give; which of the names are relations, that an
    assignment cannot set; and, for a value assigned to a field, the value
    that its column stores when the instance is saved, or why the column
    does not take it. *)
Record UserModel : Type := mkUserModel {
  get_fields : list string;
  field_defaults : attrs;
  relations : list string;
  clean : string → PyVal → PyVal + Rejection
}.

(** A model instance.  [username_of] is the username under which its row
    is stored, [loaded] holds the columns as the row has them, and
    [obj_dict] the attributes assigned on the instance since it was built:
    these stay as they were assigned, whatever their columns store. *)
Record User : Type := mkUser {
  username_of : string;
  loaded : attrs;
  obj_dict : attrs
}.

(** A field of the model that is a relation: Django refuses the
    assignment with a [TypeError]. *)
Definition is_relation (um : UserModel) (k : string) : bool :=
  bool_decide (k ∈ get_fields um) && bool_decide (k ∈ relations um).

(** [setattr(user, k, v)] *)
Definition setattr (um : UserModel) (user : User) (k : string) (v : PyVal) : Res User :=
  if is_relation um k then Raise TypeError
  else Return (mkUser (username_of user) (loaded user) (<[k := v]> (obj_dict user))).

(** [for k, v in d.items(): setattr(user, k, v)] *)
Definition setattr_items (um : UserModel) (user : User) (d : attrs) : Res User :=
  map_fold (λ k v (r : Res User),
              match r with
              | Return u => setattr um u k v
              | Raise e => Raise e
              end)
           (Return user) d.

(** [user.k]: an assigned attribute, else the username or a loaded column;
    reading an attribute that the instance does not have raises
    [AttributeError]. *)
Definition getattr_user (user : User) (k : string) : Res PyVal :=
  match obj_dict user !! k with
  | Some v => Return v
  | None =>
      if bool_decide (k = "username") then Return (PyStr (username_of user))
      else match loaded user !! k with
           | Some v => Return v
           | None => Raise (AttributeError k)
           end
  end.

(** The part of a dictionary that goes by names of fields. *)
Definition columns (um : UserModel) (d : attrs) : attrs :=
  filter (λ kv, kv.1 ∈ get_fields um) d.

(** The values that the columns store for the assigned values [d], field
    by field in the order of the model; the first column that does not
    take its value stops the save with its exception. *)
Fixpoint clean_fields (um : UserModel) (names : list string) (d : attrs) : Res attrs :=
  match names with
  | [] => Return ∅
  | k :: names =>
      match d !! k with
      | None => clean_fields um names d
      | Some v =>
          match clean um k v with
          | inr r => Raise (rejection_error r)
          | inl w =>
              match clean_fields um names d with
              | Return c => Return (<[k := w]> c)
              | Raise e => Raise e
              end
          end
      end
  end.

(** The username under which a row is written: the one assigned, when one
    was, else [name]; the column holds text. *)
Definition username_key (cleaned : attrs) (name : string) : Res string :=
  match cleaned !! "username" with
  | None => Return name
  | Some (PyStr s) => Return s
  | Some _ => Raise IntegrityError
  end.

(** Writing a row.  The assigned values [dirty] are cleaned and laid over
    the columns [base]; the row goes under the username assigned, or under
    [name]; [old] is the username of the row that the write replaces, when
    it replaces one.  Usernames are unique: a username that another row
    has is refused, and then nothing is written. *)
Definition store_row (um : UserModel) (old : option string) (name : string)
    (dirty base : attrs) (t : gmap string attrs) : Res (string * gmap string attrs) :=
  match clean_fields um (get_fields um) dirty with
  | Raise e => Raise e
  | Return cleaned =>
      match username_key cleaned name with
      | Raise e => Raise e
      | Return key =>
          let t' := match old with Some k => delete k t | None => t end in
          if bool_decide (is_Some (t' !! key)) then Raise IntegrityError
          else Return (key, <[key := delete "username" cleaned ∪ base]> t')
      end
  end.

(** [user.save(force_insert=...)]: an update of the row of the instance,
    or the insertion of a new row; the instance is then stored under the
    username of the row. *)
Definition user_save (um : UserModel) (force_insert : bool) (user : User) : M User :=
  λ st,
  match store_row um (if force_insert then None else Some (username_of user))
          (username_of user) (columns um (obj_dict user)) (loaded user) (users st)
  with
  | Raise e => (Raise e, st)
  | Return (key, t') =>
      (Return (mkUser key (loaded user) (obj_dict user)), set_users (λ _, t') st)
  end.

(** [objects.get(username=username)] *)
Definition objects_get (username : string) : M User := λ st,
  match users st !! username with
  | Some row => (Return (mkUser username row ∅), st)
  | None => (Raise DoesNotExist, st)
  end.

(** [objects.update_or_create(username=username, defaults=defaults)];
    returns the instance and whether it was created.  A row found is
    updated with the defaults; else an instance is built from the username
    and the defaults, which come last and so may give another username, and
    is inserted. *)
Definition objects_update_or_create (um : UserModel) (username : string)
    (defaults : attrs) : M (User * bool) := λ st,
  match users st !! username with
  | Some row =>
      (user ← call (setattr_items um (mkUser username row ∅) defaults);
       user ← user_save um false user;
       mret (user, false)) st
  | None =>
      (user ← call (setattr_items um
                      (mkUser username (columns um (field_defaults um)) ∅) defaults);
       user ← user_save um true user;
       mret (user, true)) st
  end.

(** ** Settings *)

(** The settings the backend reads with [getattr(settings, name, default)]:
    [None] is a setting that the settings module does not define. *)
Record Settings : Type := mkSettings {
  COGNITO_ATTR_MAPPING : option (gmap string string);
  COGNITO_CREATE_UNKNOWN_USERS : option bool
}.

(** The default of [CognitoUser.COGNITO_ATTR_MAPPING] in backend.py. *)
Definition default_attr_mapping : gmap string string :=
  {[ "email" := "email";
     "given_name" := "first_name";
     "family_name" := "last_name" ]}.

(** [webapp/settings.py]: the mapping, when the environment does not
    override it, has two more entries, and [COGNITO_CREATE_UNKNOWN_USERS]
    is not defined. *)
Definition webapp_settings : Settings :=
  mkSettings
    (Some {[ "email" := "email";
             "given_name" := "first_name";
             "family_name" := "last_name";
             "custom:api_key" := "api_key";
             "custom:api_key_id" := "api_key_id" ]})
    None.

(** [CognitoUser.COGNITO_ATTR_MAPPING] *)
Definition CognitoUser_COGNITO_ATTR_MAPPING (settings : Settings) : gmap string string :=
  default default_attr_mapping (COGNITO_ATTR_MAPPING settings).

(** [getattr(settings, 'COGNITO_CREATE_UNKNOWN_USERS', True)] *)
Definition create_unknown_users (settings : Settings) : bool :=
  default true (COGNITO_CREATE_UNKNOWN_USERS settings).

(** ** The identity provider client (warrant's [Cognito]) *)

(** The three tokens a successful [authenticate] leaves on the client. *)
Record Tokens : Type := mkTokens {
  access_token : string;
  id_token : string;
  refresh_token : string
}.

(** The provider is outside the repository: each of its operations is given
    by its outcome on the arguments of the call.  An attribute list is the
    provider's sequence of Name/Value pairs. *)
Record Provider : Type := mkProvider {
  p_authenticate : string → string → Res Tokens;
  p_get_user_attributes : string → Tokens → Res (list (string * string));
  p_register : string → string → attrs → Res attrs;
  p_confirm_sign_up : string → string → Res unit;
  p_update_profile : attrs → gmap string string → Res unit
}.

(** ** [CognitoUser.get_user_obj] *)

(** One turn of the loop over [list(user_attrs.items())]: a key that is not
    a field of the user model is popped from [user_attrs] into
    [extra_attrs]. *)
Definition extract_extra (django_fields : list string)
    (acc : attrs * attrs) (kv : string * PyVal) : attrs * attrs :=
  let '(user_attrs, extra_attrs) := acc in
  let k := kv.1 in
  if bool_decide (k ∈ django_fields) then (user_attrs, extra_attrs)
  else (delete k user_attrs, <[k := default PyNone (user_attrs !! k)]> extra_attrs).

(** The loop: from the dictionary of [cognito_to_dict] to the pair
    [(user_attrs, extra_attrs)] after it. *)
Definition split_attrs (django_fields : list string) (d : attrs) : attrs * attrs :=
  foldl (extract_extra django_fields) (d, ∅) (map_to_list d).

Section Backend.
(** [cognito_to_dict] is imported from [djwarrant/utils.py]; the backend
    is stated for whatever dictionary it returns. *)
Variable cognito_to_dict : list (string * string) → gmap string string → attrs.
Variable settings : Settings.
Variable user_class : UserModel.
Variable provider : Provider.

Definition get_user_obj (username : string)
    (attribute_list : list (string * string)) : M (option User) :=
  let d := cognito_to_dict attribute_list (CognitoUser_COGNITO_ATTR_MAPPING settings) in
  let django_fields := get_fields user_class in
  let '(user_attrs, extra_attrs) := split_attrs django_fields d in
  user ← (if create_unknown_users settings then
            '(user, created) ← objects_update_or_create user_class username user_attrs;
            mret (Some user)
          else
            try_except
              (user ← objects_get username;
               user ← call (setattr_items user_class user user_attrs);
               user ← user_save user_class false user;
               mret (Some user))
              (λ e, bool_decide (e = DoesNotExist))
              (λ _, mret None)
              mret);
  match user with
  | Some user =>
      user ← call (setattr_items user_class user extra_attrs);
      mret (Some user)
  | None => mret None
  end.

(** [Cognito.get_user] of warrant: fetches the attribute list with the
    access token and hands it to [get_user_obj]. *)
Definition get_user (username : string) (tokens : Tokens) : M (option User) :=
  attribute_list ← call (p_get_user_attributes provider username tokens);
  get_user_obj username attribute_list.

(** [AbstractCognitoBackend.authenticate] *)
Definition AbstractCognitoBackend_authenticate (username password : string)
    : M (option User) :=
  try_except
    (call (p_authenticate provider username password))
    except_Boto3Error_ClientError
    (λ e, call (handle_error_response e))
    (λ tokens,
       user ← get_user username tokens;
       match user with
       | Some user =>
           user ← call (setattr user_class user "access_token"
                          (PyStr (access_token tokens)));
           user ← call (setattr user_class user "id_token"
                          (PyStr (id_token tokens)));
           user ← call (setattr user_class user "refresh_token"
                          (PyStr (refresh_token tokens)));
           mret (Some user)
       | None => mret None
       end).

(** [CognitoBackend.authenticate] *)
Definition CognitoBackend_authenticate (username password : string)
    : M (option User) :=
  user ← AbstractCognitoBackend_authenticate username password;
  match user with
  | Some u =>
      access ← call (getattr_user u "access_token");
      _ ← session_setitem "ACCESS_TOKEN" access;
      ident ← call (getattr_user u "id_token");
      _ ← session_setitem "ID_TOKEN" ident;
      refresh ← call (getattr_user u "refresh_token");
      _ ← session_setitem "REFRESH_TOKEN" refresh;
      _ ← session_save;
      mret (Some u)
  | None => mret None
  end.

(** [CognitoBackend.register]; [add_base_attributes] stores the three
    attributes on the client, and [register] sends them. *)
Definition CognitoBackend_register
    (username password email first_name last_name : string)
    : M (option attrs) :=
  try_except
    (let base_attributes : attrs :=
       {[ "given_name" := PyStr first_name;
          "family_name" := PyStr last_name;
          "email" := PyStr email ]} in
     call (p_register provider username password base_attributes))
    except_Boto3Error_ClientError
    (λ e, call (handle_error_response e))
    (λ response, mret (Some response)).

(** [CognitoBackend.validate_user]; the method has no [return]. *)
Definition CognitoBackend_validate_user (confirmation_code username : string)
    : M unit :=
  call (p_confirm_sign_up provider confirmation_code username).
End Backend.
(** ** The views of [djwarrant/views/profile.py] *)

Inductive HttpResponse : Type :=
| Denied
| Redirect (url_name : string)
| Page (template_name : string) (context : attrs).

(** [d.pop(k)] without a default. *)
Definition dict_pop (k : string) (d : gmap string string)
    : Res (string * gmap string string) :=
  match d !! k with
  | Some v => Return (v, delete k d)
  | None => Raise (KeyError k)
  end.

Section Views.
(** [cognito_to_dict] of [djwarrant/utils.py], as in the backend. *)
Variable cognito_to_dict : list (string * string) → gmap string string → attrs.
Variable settings : Settings.
Variable provider : Provider.
(** [get_cognito(request)] of [djwarrant/utils.py]: the client bound to
    the session of the request, with its username and tokens. *)
Variable get_cognito : M (string * Tokens).

(** [AccessMixin.handle_no_permission]: a redirect to the login page or
    a 403, in both cases the view is not run. *)
Definition handle_no_permission : M HttpResponse := mret Denied.

(** [TokenMixin.dispatch], with [super().dispatch] as [next]. *)
Definition TokenMixin_dispatch (next : M HttpResponse) : M HttpResponse :=
  token ← session_get "REFRESH_TOKEN";
  if negb (truthy_opt token) then handle_no_permission else next.

(** [LoginRequiredMixin.dispatch] of Django. *)
Definition LoginRequiredMixin_dispatch (is_authenticated : bool)
    (next : M HttpResponse) : M HttpResponse :=
  if negb is_authenticated then handle_no_permission else next.

(** [GetUserMixin.get_user]: the argument [settings.COGNITO_ATTR_MAPPING]
    is read before the call, and reading a setting that is not defined
    raises; [get_user] of the client then fetches the attribute list and
    gives the user's data under the names of the mapping. *)
Definition GetUserMixin_get_user : M attrs :=
  '(username, tokens) ← get_cognito;
  attr_map ← call (match COGNITO_ATTR_MAPPING settings with
                   | Some m => Return m
                   | None => Raise (AttributeError "COGNITO_ATTR_MAPPING")
                   end);
  attribute_list ← call (p_get_user_attributes provider username tokens);
  mret (cognito_to_dict attribute_list attr_map).

(** [ProfileView]: the mixins in the order of its bases, then the
    template view with the user in its context. *)
Definition ProfileView_dispatch (is_authenticated : bool) : M HttpResponse :=
  LoginRequiredMixin_dispatch is_authenticated
    (TokenMixin_dispatch
       (user ← GetUserMixin_get_user;
        mret (Page "warrant/profile.html" user))).

(** [UpdateProfileView.form_valid] *)
Definition UpdateProfileView_form_valid (cleaned_data : gmap string string)
    : M HttpResponse :=
  c ← get_cognito;
  attr_map ← call (match COGNITO_ATTR_MAPPING settings with
                   | Some m => Return m
                   | None => Raise (AttributeError "COGNITO_ATTR_MAPPING")
                   end);
  _ ← call (p_update_profile provider (PyStr <$> cleaned_data) attr_map);
  _ ← modify (add_flash "You have successfully updated your profile.");
  mret (Redirect "dw:profile").

(** [django.contrib.auth.views.LogoutView.dispatch]: [logout(request)]
    flushes the session; a request that names no next page, with no
    LOGOUT_REDIRECT_URL in the settings, is then answered with the
    logged-out page. *)
Definition DJLogoutView_dispatch : M HttpResponse :=
  _ ← session_flush;
  mret (Page "registration/logged_out.html" ∅).

(** [LogoutView.dispatch] *)
Definition LogoutView_dispatch : M HttpResponse :=
  _ ← session_delete;
  DJLogoutView_dispatch.

(** [SignUpView.form_valid] *)
Definition SignUpView_form_valid (cleaned_data : gmap string string)
    : M HttpResponse :=
  '(username, cleaned_data) ← call (dict_pop "username" cleaned_data);
  '(password, cleaned_data) ← call (dict_pop "password1" cleaned_data);
  '(_, cleaned_data) ← call (dict_pop "password2" cleaned_data);
  '(first_name, cleaned_data) ← call (dict_pop "first_name" cleaned_data);
  let cleaned_data := <["given_name" := first_name]> cleaned_data in
  '(last_name, cleaned_data) ← call (dict_pop "last_name" cleaned_data);
  let cleaned_data := <["family_name" := last_name]> cleaned_data in
  _ ← call (p_register provider username password (PyStr <$> cleaned_data));
  _ ← modify (add_flash "You have successfully signed up.");
  mret (Redirect "dw:login").
End Views.
(** ** Concrete collaborators *)

(** Modelled from the spec: [cognito_to_dict] of [djwarrant/utils.py] is
    not among the sources.  Section 4.1: a provider key present in the
    mapping goes under its local field name, a key not present keeps its
    name, and values pass through as they are.  The result is one
    dictionary, so of two pairs with the same resulting key the later one
    stays. *)
Definition spec_cognito_to_dict (attribute_list : list (string * string))
    (attr_map : gmap string string) : attrs :=
  foldl (λ d a, <[default a.1 (attr_map !! a.1) := PyStr a.2]> d) ∅ attribute_list.

(** What a text column of Django stores ([CharField]): text as it is,
    another value in its text form; it is not nullable. *)
Definition clean_text (v : PyVal) : PyVal + Rejection :=
  match v with
  | PyStr s => inl (PyStr s)
  | PyBool b => inl (PyStr (if b then "True" else "False"))
  | PyNone => inr Constraint
  end.

(** What a boolean column of Django stores ([BooleanField]): a boolean, or
    the boolean that one of six spellings stands for; it is not nullable. *)
Definition clean_boolean (v : PyVal) : PyVal + Rejection :=
  match v with
  | PyBool b => inl (PyBool b)
  | PyStr s =>
      if bool_decide (s ∈ ["t"; "True"; "1"]) then inl (PyBool true)
      else if bool_decide (s ∈ ["f"; "False"; "0"]) then inl (PyBool false)
      else inr NotValid
  | PyNone => inr Constraint
  end.

(** Django's [django.contrib.auth.models.User], the user model of the web
    application (its settings name no other): the names of
    [_meta.get_fields()], the constant defaults of its columns (the key
    [id] and [date_joined] get theirs from the database and the clock, and
    have none here), its relations, and what its columns store.  The key
    [id] and the two date columns are given for the values that are no
    numbers and no dates only, which they refuse; numbers and dates in
    text form are not among the values of this model. *)
Definition auth_User : UserModel :=
  mkUserModel
    ["logentry"; "id"; "password"; "last_login"; "is_superuser"; "username";
     "first_name"; "last_name"; "email"; "is_staff"; "is_active";
     "date_joined"; "groups"; "user_permissions"]
    {[ "password" := PyStr "";
       "is_superuser" := PyBool false;
       "first_name" := PyStr "";
       "last_name" := PyStr "";
       "email" := PyStr "";
       "is_staff" := PyBool false;
       "is_active" := PyBool true ]}
    ["logentry"; "groups"; "user_permissions"]
    (λ k v,
       if bool_decide (k ∈ ["password"; "username"; "first_name"; "last_name"; "email"])
       then clean_text v
       else if bool_decide (k ∈ ["is_superuser"; "is_staff"; "is_active"])
       then clean_boolean v
       else if bool_decide (k = "id")
       then match v with PyNone => inr Constraint | _ => inr NotAValue end
       else if bool_decide (k = "last_login")
       then match v with PyNone => inl PyNone | _ => inr NotValid end
       else if bool_decide (k = "date_joined")
       then match v with PyNone => inr Constraint | _ => inr NotValid end
       else inl v).

(** ** The attribute partition as the specification words it *)

(** Section 8: every key of the attribute list is in exactly one of the two
    outputs, a key present in the mapping among the mapped fields under its
    local name, a key not present among the extra fields under its own. *)
Definition spec_partition (attribute_list : list (string * string))
    (attr_map : gmap string string) (mapped extra : attrs) : Prop :=
  ∀ name, name ∈ attribute_list.*1 →
    match attr_map !! name with
    | Some field => is_Some (mapped !! field) ∧ extra !! name = None
    | None => is_Some (extra !! name) ∧ mapped !! name = None
    end.

(** The three session keys of the tokens. *)
Definition token_session_keys : list string :=
  ["ACCESS_TOKEN"; "ID_TOKEN"; "REFRESH_TOKEN"].


(** ** Names used in the statements *)

(** [user_attrs] and [extra_attrs] as they stand after the loop of
    [get_user_obj], for a given attribute list. *)
Definition user_attrs_of
    (cognito_to_dict : list (string * string) → gmap string string → attrs)
    (settings : Settings) (user_class : UserModel)
    (attribute_list : list (string * string)) : attrs :=
  (split_attrs (get_fields user_class)
     (cognito_to_dict attribute_list (CognitoUser_COGNITO_ATTR_MAPPING settings))).1.

Definition extra_attrs_of
    (cognito_to_dict : list (string * string) → gmap string string → attrs)
    (settings : Settings) (user_class : UserModel)
    (attribute_list : list (string * string)) : attrs :=
  (split_attrs (get_fields user_class)
     (cognito_to_dict attribute_list (CognitoUser_COGNITO_ATTR_MAPPING settings))).2.

(** The attribute names under which [authenticate] puts the tokens on the
    user it returns. *)
Definition token_attribute_names : list string :=
  ["access_token"; "id_token"; "refresh_token"].

(** The user of [get_user_obj] with the three tokens assigned, as
    [authenticate] returns it. *)
Definition with_tokens (user : User) (tokens : Tokens) : User :=
  mkUser (username_of user) (loaded user)
    (<["refresh_token" := PyStr (refresh_token tokens)]>
       (<["id_token" := PyStr (id_token tokens)]>
          (<["access_token" := PyStr (access_token tokens)]> (obj_dict user)))).

(** No key of the dictionary is a relation of the model, so that every
    item of it can be assigned. *)
Definition assignable (um : UserModel) (d : attrs) : bool :=
  bool_decide (map_Forall (λ k _, is_relation um k = false) d).

(** The three token names are no relations of the model. *)
Definition tokens_assignable (um : UserModel) : bool :=
  forallb (λ k, negb (is_relation um k)) token_attribute_names.


(** The row that [get_user_obj] writes for: the row found under the
    username, to be updated, or the defaults of a row to be inserted when
    auto-provisioning allows one; [None] when there is nothing to write. *)
Definition row_target (um : UserModel) (create : bool) (username : string)
    (t : gmap string attrs) : option (bool * attrs) :=
  match t !! username with
  | Some row => Some (false, row)
  | None => if create then Some (true, columns um (field_defaults um)) else None
  end.

(** The user table after [get_user_obj] with the user fields [ua]. *)
Definition table_after (um : UserModel) (create : bool) (username : string)
    (ua : attrs) (t : gmap string attrs) : gmap string attrs :=
  match row_target um create username t with
  | None => t
  | Some (force_insert, base) =>
      if assignable um ua then
        match store_row um (if force_insert then None else Some username)
                username (columns um ua) base t with
        | Return (_, t') => t'
        | Raise _ => t
        end
      else t
  end.

(** The session after [CognitoBackend.authenticate] has stored the tokens
    and saved it. *)
Definition bound_session (tokens : Tokens) (s : Session) : Session :=
  let c := <["REFRESH_TOKEN" := PyStr (refresh_token tokens)]>
             (<["ID_TOKEN" := PyStr (id_token tokens)]>
                (<["ACCESS_TOKEN" := PyStr (access_token tokens)]> (cache s))) in
  mkSession c (Some c).

(** The two codes that [handle_error_response] turns into [None]. *)
Definition suppressed (kind : string) : bool :=
  bool_decide (kind ∈ [UNAUTHORIZED_ERROR_CODE; USER_NOT_FOUND_ERROR_CODE]).

(** The two-tier policy of section 7 at a provider call site, where
    [outcome e] is what the site hands to its caller when its provider call
    raises [e]: the negative outcome [none] for the two suppressed kinds,
    the error itself for every other kind. *)
Definition two_tier {B : Type} (outcome : PyExc → Res B) (none : B) : Prop :=
  ∀ e kind, error_kind e = Some kind →
    outcome e = if suppressed kind then Return none else Raise e.

(** The attributes that [CognitoBackend.register] puts on the client with
    [add_base_attributes] and so sends to the provider. *)
Definition register_attributes (email first_name last_name : string) : attrs :=
  {[ "given_name" := PyStr first_name;
     "family_name" := PyStr last_name;
     "email" := PyStr email ]}.

(** A provider: every operation raises [e]. *)
Definition failing_provider (e : PyExc) : Provider :=
  mkProvider (λ _ _, Raise e) (λ _ _, Raise e) (λ _ _ _, Raise e)
             (λ _ _, Raise e) (λ _ _, Raise e).

(** A provider that accepts every credential pair with [tokens] and
    reports the attribute list [L]. *)
Definition accepting_provider (tokens : Tokens) (L : list (string * string)) : Provider :=
  mkProvider (λ _ _, Return tokens) (λ _ _, Return L) (λ _ _ _, Return ∅)
             (λ _ _, Return tt) (λ _ _, Return tt).

(** The error Cognito answers a wrong password with. *)
Definition not_authorized : PyExc :=
  ClientError
    {[ "Error" := {[ "Code" := "NotAuthorizedException";
                     "Message" := "Incorrect username or password." ]} ]}.

(** A request with a new session and an empty user table, and one with a
    row for alice. *)
Definition empty_state : State := mkState ∅ (mkSession ∅ None) [].

Definition alice_row : attrs :=
  {[ "email" := PyStr "old@x.com";
     "first_name" := PyStr "Alice";
     "is_staff" := PyBool true ]}.

Definition alice_state : State :=
  mkState {[ "alice" := alice_row ]} (mkSession ∅ None) [].

(** Settings that define neither of the two settings of the backend, and
    settings that switch auto-provisioning off. *)
Definition default_settings : Settings := mkSettings None None.
Definition no_provisioning_settings : Settings := mkSettings None (Some false).

(** The cleaned data of a valid sign-up form. *)
Definition signup_form : gmap string string :=
  {[ "username" := "alice";
     "password1" := "s3cret-pw";
     "password2" := "s3cret-pw";
     "first_name" := "A";
     "last_name" := "B";
     "email" := "a@x.com" ]}.


Definition example_tokens : Tokens := mkTokens "access-1" "id-1" "refresh-1".

Definition example_attributes : list (string * string) :=
  [("email", "a@x.com"); ("given_name", "A"); ("family_name", "B")].


(** ** Properties of the local record as the specification words them *)




(** Section 8: a returned record carries three non-empty tokens. *)
Definition spec_tokens_nonempty (result : Res (option User) * State) : Prop :=
  ∀ user, result.1 = Return (Some user) →
    ∀ k, k ∈ token_attribute_names →
      ∃ s, obj_dict user !! k = Some (PyStr s) ∧ s ≠ "".

(** * Properties *)

(** ** The loops of [get_user_obj] *)

Section Loops.
Implicit Types (d user_attrs extra_attrs : attrs) (F : list string).

(** The loop over a snapshot [l] of the items of [user_attrs]: a key of
    the snapshot that is not a field leaves [user_attrs] for
    [extra_attrs], with its value. *)
Lemma foldl_extract_extra F (l : list (string * PyVal)) user_attrs extra_attrs :
  NoDup l.*1 →
  (∀ k v, (k, v) ∈ l → user_attrs !! k = Some v) →
  ∀ k,
    (foldl (extract_extra F) (user_attrs, extra_attrs) l).1 !! k
      = (if decide (k ∈ l.*1 ∧ k ∉ F) then None else user_attrs !! k)
    ∧ (foldl (extract_extra F) (user_attrs, extra_attrs) l).2 !! k
      = (if decide (k ∈ l.*1 ∧ k ∉ F) then user_attrs !! k else extra_attrs !! k).
Proof.
  revert user_attrs extra_attrs.
  induction l as [|[k0 v0] l IH]; intros ua ea Hnd Hin k.
  { simpl. split; (destruct (decide (k ∈ [] ∧ k ∉ F)) as [[Hk _]|_];
                     [by apply elem_of_nil in Hk|done]). }
  apply NoDup_cons in Hnd as [Hk0 Hnd].
  assert (Hua0 : ua !! k0 = Some v0) by (apply Hin; left).
  change (foldl (extract_extra F) (ua, ea) ((k0, v0) :: l))
    with (foldl (extract_extra F) (extract_extra F (ua, ea) (k0, v0)) l).
  unfold extract_extra at 2 4. simpl fst.
  case_bool_decide as HF.
  - assert (Hin' : ∀ k' v', (k', v') ∈ l → ua !! k' = Some v').
    { intros k' v' ?. apply Hin. by right. }
    destruct (IH ua ea Hnd Hin' k) as [E1 E2].
    rewrite E1, E2.
    assert (Hiff : k ∈ l.*1 ∧ k ∉ F ↔ k ∈ ((k0, v0) :: l).*1 ∧ k ∉ F).
    { rewrite fmap_cons, elem_of_cons. simpl. naive_solver. }
    by rewrite !(decide_ext _ _ _ _ Hiff).
  - rewrite Hua0. simpl default.
    assert (Hin' : ∀ k' v', (k', v') ∈ l → delete k0 ua !! k' = Some v').
    { intros k' v' Hl. rewrite lookup_delete_ne.
      - apply Hin. by right.
      - intros ->. apply Hk0. apply list_elem_of_fmap. by exists (k', v'). }
    destruct (IH (delete k0 ua) (<[k0 := v0]> ea) Hnd Hin' k) as [E1 E2].
    rewrite E1, E2.
    destruct (decide (k = k0)) as [->|Hne].
    + rewrite lookup_delete_eq, lookup_insert_eq.
      rewrite !(decide_False (P := k0 ∈ l.*1 ∧ k0 ∉ F)) by naive_solver.
      assert (Hin0 : k0 ∈ ((k0, v0) :: l).*1 ∧ k0 ∉ F).
      { split; [rewrite fmap_cons; left|done]. }
      by rewrite !(decide_True (P := k0 ∈ ((k0, v0) :: l).*1 ∧ k0 ∉ F)) by done.
    + rewrite lookup_delete_ne, lookup_insert_ne by done.
      assert (Hiff : k ∈ l.*1 ∧ k ∉ F ↔ k ∈ ((k0, v0) :: l).*1 ∧ k ∉ F).
      { rewrite fmap_cons, elem_of_cons. simpl. naive_solver. }
      by rewrite !(decide_ext _ _ _ _ Hiff).
Qed.

Lemma split_attrs_lookup F d k :
  (split_attrs F d).1 !! k = (if decide (k ∈ F) then d !! k else None)
  ∧ (split_attrs F d).2 !! k = (if decide (k ∈ F) then None else d !! k).
Proof.
  unfold split_attrs.
  destruct (foldl_extract_extra F (map_to_list d) d ∅) with (k := k) as [E1 E2].
  { apply NoDup_fst_map_to_list. }
  { intros k' v'. apply elem_of_map_to_list. }
  rewrite E1, E2, lookup_empty.
  assert (Hdom : k ∈ (map_to_list d).*1 ↔ is_Some (d !! k)).
  { rewrite list_elem_of_fmap. split.
    - intros [[k' v'] [-> Hin]]. apply elem_of_map_to_list in Hin. eauto.
    - intros [v Hv]. exists (k, v). split; [done|]. by apply elem_of_map_to_list. }
  split; repeat case_decide; try done.
  - naive_solver.
  - destruct (d !! k) eqn:E; [|done]. exfalso. naive_solver.
  - naive_solver.
  - destruct (d !! k) eqn:E; [|done]. exfalso. naive_solver.
Qed.

Lemma split_attrs_fst F d :
  (split_attrs F d).1 = filter (λ kv, kv.1 ∈ F) d.
Proof.
  apply map_eq. intros k.
  rewrite (proj1 (split_attrs_lookup F d k)).
  case_decide as HF.
  - destruct (d !! k) as [v|] eqn:E.
    + symmetry. by apply map_lookup_filter_Some.
    + symmetry. apply map_lookup_filter_None. left. done.
  - symmetry. apply map_lookup_filter_None. right. intros v _. done.
Qed.

Lemma split_attrs_snd F d :
  (split_attrs F d).2 = filter (λ kv, kv.1 ∉ F) d.
Proof.
  apply map_eq. intros k.
  rewrite (proj2 (split_attrs_lookup F d k)).
  case_decide as HF.
  - symmetry. apply map_lookup_filter_None. right. intros v _ Hn. by apply Hn.
  - destruct (d !! k) as [v|] eqn:E.
    + symmetry. by apply map_lookup_filter_Some.
    + symmetry. apply map_lookup_filter_None. left. done.
Qed.

End Loops.

(** ** Error handling *)

Lemma error_kind_ClientError (error : PyExc) (kind : string) :
  error_kind error = Some kind →
  ∃ response err,
    error = ClientError response
    ∧ response !! "Error" = Some err ∧ err !! "Code" = Some kind.
Proof.
  destruct error as [response| | | | | | | | |]; simpl; try discriminate.
  destruct (response !! "Error") as [err|] eqn:E; simpl; [|discriminate].
  intros Hk. by exists response, err.
Qed.

(** An error with a kind is handled by its kind alone. *)
Lemma handle_error_response_kind (A : Type) (error : PyExc) (kind : string) :
  error_kind error = Some kind →
  @handle_error_response A error =
    if bool_decide (kind ∈ [UNAUTHORIZED_ERROR_CODE; USER_NOT_FOUND_ERROR_CODE])
    then Return None else Raise error.
Proof.
  intros (response & err & -> & He & Hc)%error_kind_ClientError.
  unfold handle_error_response, getitem. simpl. by rewrite He, Hc.
Qed.

Lemma handle_error_response_no_kind (A : Type) (error : PyExc) :
  error_kind error = None →
  @handle_error_response A error = Raise (AttributeError "response")
  ∨ @handle_error_response A error = Raise (KeyError "Error")
  ∨ @handle_error_response A error = Raise (KeyError "Code").
Proof.
  destruct error as [response| | | | | | | | |]; simpl; auto.
  unfold handle_error_response, getitem. simpl.
  destruct (response !! "Error") as [err|]; simpl; [|auto].
  intros ->. auto.
Qed.

(** C10: for a caught exception (a [Boto3Error] or a [ClientError]) that
    lacks [error.response['Error']['Code']], [handle_error_response]
    raises an [AttributeError] or a [KeyError] of its own: it neither
    returns [None] nor re-raises the exception it was given; a plain
    [Boto3Error] gets the [AttributeError].  Whenever it returns [None],
    the exception is a [ClientError] whose response carries one of the two
    suppressed codes. *)
Theorem handle_error_response_needs_code (A : Type) (error : PyExc) :
  except_Boto3Error_ClientError error = true →
  (error_kind error = None →
     ∃ e', @handle_error_response A error = Raise e'
           ∧ e' ≠ error
           ∧ (e' = AttributeError "response" ∨ ∃ k, e' = KeyError k)
           ∧ @handle_error_response A error ≠ Return None)
  ∧ (∀ msg, error = Boto3Error msg →
       @handle_error_response A error = Raise (AttributeError "response"))
  ∧ (@handle_error_response A error = Return None →
       ∃ response kind,
         error = ClientError response ∧ error_kind error = Some kind
         ∧ (kind = UNAUTHORIZED_ERROR_CODE ∨ kind = USER_NOT_FOUND_ERROR_CODE)).
Proof.
  intros Hcaught. split; [|split].
  - intros Hnone.
    destruct (handle_error_response_no_kind A error Hnone) as [E|[E|E]];
      rewrite E; eexists; (split; [reflexivity|]);
      (split; [by destruct error|]); (split; [eauto|discriminate]).
  - by intros msg ->.
  - intros Hret. destruct (error_kind error) as [kind|] eqn:Hk.
    + rewrite (handle_error_response_kind A error kind Hk) in Hret.
      case_bool_decide as Hin; [|discriminate].
      destruct (error_kind_ClientError error kind Hk) as (response & err & -> & _).
      exists response, kind. split; [done|]. split; [done|].
      apply elem_of_cons in Hin as [->|Hin]; [by left|].
      apply list_elem_of_singleton in Hin as ->. by right.
    + destruct (handle_error_response_no_kind A error Hk) as [E|[E|E]];
        rewrite E in Hret; discriminate.
Qed.

Lemma handle_error_response_needs_code_witness :
  ∃ e', @handle_error_response User (Boto3Error "retries exceeded") = Raise e'
        ∧ e' ≠ Boto3Error "retries exceeded"
        ∧ (e' = AttributeError "response" ∨ ∃ k, e' = KeyError k)
        ∧ @handle_error_response User (Boto3Error "retries exceeded") ≠ Return None.
Proof.
  apply (proj1 (handle_error_response_needs_code User
                  (Boto3Error "retries exceeded") eq_refl)).
  reflexivity.
Defined.

(** *** [authenticate] when the provider refuses *)

Section AuthenticateErrors.
Variable cognito_to_dict : list (string * string) → gmap string string → attrs.
Variable settings : Settings.
Variable user_class : UserModel.
Variable provider : Provider.

Local Abbreviation authenticate :=
  (AbstractCognitoBackend_authenticate cognito_to_dict settings user_class provider).

Lemma authenticate_raise username password e st :
  p_authenticate provider username password = Raise e →
  authenticate username password st =
    if except_Boto3Error_ClientError e
    then (handle_error_response e, st) else (Raise e, st).
Proof.
  intros Hp. unfold AbstractCognitoBackend_authenticate, try_except, call.
  by rewrite Hp.
Qed.

(** Errors that carry a code, and exceptions outside the [except] clause:
    when the provider's [authenticate] raises an error of kind
    "not authorized" or "user not found", [authenticate] returns [None];
    when it raises an error with any other code, or an exception that the
    clause does not name, that same error reaches the caller; in every
    case the state, and with it the local user table, is what it was
    before the call. *)
Lemma authenticate_provider_error username password e st :
  p_authenticate provider username password = Raise e →
  (∀ kind, error_kind e = Some kind →
     kind = UNAUTHORIZED_ERROR_CODE ∨ kind = USER_NOT_FOUND_ERROR_CODE →
     (authenticate username password st).1 = Return None)
  ∧ (∀ kind, error_kind e = Some kind →
       kind ≠ UNAUTHORIZED_ERROR_CODE → kind ≠ USER_NOT_FOUND_ERROR_CODE →
       (authenticate username password st).1 = Raise e)
  ∧ (except_Boto3Error_ClientError e = false →
       (authenticate username password st).1 = Raise e)
  ∧ (authenticate username password st).2 = st
  ∧ users (authenticate username password st).2 = users st.
Proof.
  intros Hp. rewrite (authenticate_raise _ _ _ _ Hp).
  repeat split.
  - intros kind Hk Hor.
    destruct (error_kind_ClientError e kind Hk) as (response & err & -> & _).
    simpl. rewrite (handle_error_response_kind _ _ kind Hk).
    rewrite bool_decide_eq_true_2; [done|].
    destruct Hor as [->| ->]; [left|right; left].
  - intros kind Hk Hn1 Hn2.
    destruct (error_kind_ClientError e kind Hk) as (response & err & -> & _).
    simpl. rewrite (handle_error_response_kind _ _ kind Hk).
    rewrite bool_decide_eq_false_2; [done|].
    intros [->|Hin]%elem_of_cons; [done|].
    by apply list_elem_of_singleton in Hin as ->.
  - by intros ->.
  - by destruct (except_Boto3Error_ClientError e).
  - by destruct (except_Boto3Error_ClientError e).
Qed.

(** C1: a [Boto3Error] of the provider is an error of another kind than the
    two suppressed ones, and the [except] clause names its class; yet it
    does not reach the caller: [handle_error_response] reads
    [error.response], which a [Boto3Error] does not have, and the caller
    gets an [AttributeError] in its place.  The state, with the local user
    table, is what it was before the call. *)
Theorem authenticate_masks_Boto3Error username password msg st :
  AbstractCognitoBackend_authenticate cognito_to_dict settings user_class
    (failing_provider (Boto3Error msg)) username password st
  = (Raise (AttributeError "response"), st)
  ∧ @Raise (option User) (AttributeError "response") ≠ Raise (Boto3Error msg)
  ∧ error_kind (Boto3Error msg) = None.
Proof. done. Qed.
End AuthenticateErrors.

(** ** The local store *)

Lemma columns_lookup (um : UserModel) (d : attrs) (k : string) :
  columns um d !! k = if decide (k ∈ get_fields um) then d !! k else None.
Proof.
  unfold columns. case_decide as HF.
  - destruct (d !! k) as [v|] eqn:E.
    + by apply map_lookup_filter_Some.
    + apply map_lookup_filter_None. by left.
  - apply map_lookup_filter_None. right. by intros v _.
Qed.

(** A dictionary whose keys are all fields is its own column part. *)
Lemma columns_id (um : UserModel) (d : attrs) :
  (∀ k v, d !! k = Some v → k ∈ get_fields um) → columns um d = d.
Proof.
  intros Hd. apply map_eq. intros k. rewrite columns_lookup.
  case_decide as HF; [done|].
  destruct (d !! k) as [v|] eqn:E; [|done]. exfalso. eauto.
Qed.

(** The loop of [setattr]: a [TypeError] when a key is a relation, else
    the dictionary laid over the attributes assigned before. *)
Lemma setattr_items_spec (um : UserModel) (user : User) (d : attrs) :
  setattr_items um user d =
    if assignable um d
    then Return (mkUser (username_of user) (loaded user) (d ∪ obj_dict user))
    else Raise TypeError.
Proof.
  unfold setattr_items, assignable.
  refine (map_fold_weak_ind
            (λ (r : Res User) (m : attrs),
               r = if bool_decide (map_Forall (λ k _, is_relation um k = false) m)
                   then Return (mkUser (username_of user) (loaded user)
                                  (m ∪ obj_dict user))
                   else Raise TypeError) _ _ _ _ d).
  - rewrite bool_decide_eq_true_2 by apply map_Forall_empty.
    rewrite (left_id_L ∅ (∪)). by destruct user.
  - intros i x m r Hi ->.
    case_bool_decide as Hm.
    + unfold setattr. simpl. destruct (is_relation um i) eqn:Hrel.
      * rewrite bool_decide_eq_false_2; [done|].
        intros Hall. apply map_Forall_insert in Hall as [Hr _]; [|done]. congruence.
      * rewrite bool_decide_eq_true_2 by (by apply map_Forall_insert).
        by rewrite insert_union_l.
    + rewrite bool_decide_eq_false_2; [done|].
      intros Hall. apply map_Forall_insert in Hall as [_ ?]; done.
Qed.

Lemma assignable_true (um : UserModel) (d : attrs) :
  assignable um d = true ↔ ∀ k v, d !! k = Some v → is_relation um k = false.
Proof. unfold assignable. by rewrite bool_decide_eq_true. Qed.

(** What the cleaned fields hold. *)
Lemma clean_fields_lookup (um : UserModel) (names : list string) (d c : attrs) k :
  clean_fields um names d = Return c →
  c !! k = if decide (k ∈ names)
           then d !! k ≫= λ v, match clean um k v with
                               | inl w => Some w
                               | inr _ => None
                               end
           else None.
Proof.
  revert c. induction names as [|k0 names IH]; intros c; simpl.
  - intros [= <-]. rewrite lookup_empty.
    destruct (decide (k ∈ [])) as [Hin|_]; [by apply elem_of_nil in Hin|done].
  - destruct (d !! k0) as [v|] eqn:Hk0.
    + destruct (clean um k0 v) as [w|r] eqn:Hc; [|discriminate].
      destruct (clean_fields um names d) as [c'|e]; [|discriminate].
      intros [= <-]. specialize (IH c' eq_refl).
      destruct (decide (k = k0)) as [->|Hne].
      * rewrite lookup_insert_eq, decide_True by left. by rewrite Hk0; simpl; rewrite Hc.
      * rewrite lookup_insert_ne by done. rewrite IH.
        destruct (decide (k ∈ names)) as [Hin|Hin].
        -- by rewrite decide_True by (by right).
        -- rewrite decide_False; [done|]. by intros [?|?]%elem_of_cons.
    + intros Hc. specialize (IH c Hc). rewrite IH.
      destruct (decide (k = k0)) as [->|Hne].
      * rewrite Hk0. simpl. by repeat case_decide.
      * destruct (decide (k ∈ names)) as [Hin|Hin].
        -- by rewrite decide_True by (by right).
        -- rewrite decide_False; [done|]. by intros [?|?]%elem_of_cons.
Qed.

(** The cleaning fails with one of the three exceptions of a column. *)
Lemma clean_fields_raises (um : UserModel) (names : list string) (d : attrs) e :
  clean_fields um names d = Raise e →
  e ∈ [ValidationError; ValueError; IntegrityError].
Proof.
  induction names as [|k0 names IH]; simpl; [discriminate|].
  destruct (d !! k0) as [v|]; [|done].
  destruct (clean um k0 v) as [w|r].
  - destruct (clean_fields um names d); [discriminate|].
    intros [= <-]. by apply IH.
  - intros [= <-]. destruct r; simpl; repeat constructor.
Qed.



Lemma store_row_raises (um : UserModel) old name dirty base t e :
  store_row um old name dirty base t = Raise e →
  e ∈ [ValidationError; ValueError; IntegrityError].
Proof.
  unfold store_row, username_key.
  destruct (clean_fields um (get_fields um) dirty) as [c|e0] eqn:Hc.
  - destruct (c !! "username") as [[| |s]|]; try case_bool_decide;
      intros [= <-]; repeat constructor.
  - intros [= <-]. by eapply clean_fields_raises.
Qed.


(** ** A successful authentication *)

Section AuthenticateSuccess.
Variable cognito_to_dict : list (string * string) → gmap string string → attrs.
Variable settings : Settings.
Variable user_class : UserModel.
Variable provider : Provider.

Local Abbreviation authenticate :=
  (AbstractCognitoBackend_authenticate cognito_to_dict settings user_class provider).
Local Abbreviation user_attrs :=
  (user_attrs_of cognito_to_dict settings user_class).
Local Abbreviation extra_attrs :=
  (extra_attrs_of cognito_to_dict settings user_class).

(** The fields that go to the store are fields of the model; the extra
    attributes are not. *)
Lemma user_attrs_fields L k v :
  user_attrs L !! k = Some v → k ∈ get_fields user_class.
Proof.
  unfold user_attrs_of. rewrite (proj1 (split_attrs_lookup _ _ k)).
  by case_decide.
Qed.

Lemma extra_attrs_not_fields L k v :
  extra_attrs L !! k = Some v → k ∉ get_fields user_class.
Proof.
  unfold extra_attrs_of. rewrite (proj2 (split_attrs_lookup _ _ k)).
  by case_decide.
Qed.

Lemma extra_attrs_assignable L : assignable user_class (extra_attrs L) = true.
Proof.
  apply assignable_true. intros k v Hk. unfold is_relation.
  rewrite (bool_decide_eq_false_2 (k ∈ get_fields user_class)); [done|].
  by eapply extra_attrs_not_fields.
Qed.

(** [get_user_obj], written out over the row it writes for. *)
Lemma get_user_obj_eq username L st :
  get_user_obj cognito_to_dict settings user_class username L st =
    match row_target user_class (create_unknown_users settings) username (users st) with
    | None => (Return None, st)
    | Some (force_insert, base) =>
        if assignable user_class (user_attrs L) then
          match store_row user_class (if force_insert then None else Some username)
                  username (columns user_class (user_attrs L)) base (users st) with
          | Raise e => (Raise e, st)
          | Return (key, t') =>
              (Return (Some (mkUser key base (extra_attrs L ∪ user_attrs L))),
               set_users (λ _, t') st)
          end
        else (Raise TypeError, st)
    end.
Proof.
  pose proof (extra_attrs_assignable L) as Hea. revert Hea.
  unfold get_user_obj, user_attrs_of, extra_attrs_of, row_target.
  destruct (split_attrs _ _) as [ua ea]. simpl. intros Hea.
  destruct (create_unknown_users settings) eqn:Hc.
  - unfold mbind at 1, M_bind at 1. unfold mbind at 1, M_bind at 1.
    unfold objects_update_or_create.
    destruct (users st !! username) as [row|] eqn:Hu.
    + unfold mbind at 1, M_bind at 1, call. rewrite setattr_items_spec.
      destruct (assignable user_class ua); [|done]. simpl.
      rewrite (right_id_L ∅ (∪)).
      unfold mbind at 1, M_bind at 1, user_save. simpl.
      destruct (store_row _ _ _ _ _ _) as [[key t']|e]; [|done].
      simpl. unfold mbind, M_bind, call. rewrite setattr_items_spec, Hea. done.
    + unfold mbind at 1, M_bind at 1, call. rewrite setattr_items_spec.
      destruct (assignable user_class ua); [|done]. simpl.
      rewrite (right_id_L ∅ (∪)).
      unfold mbind at 1, M_bind at 1, user_save. simpl.
      destruct (store_row _ _ _ _ _ _) as [[key t']|e]; [|done].
      simpl. unfold mbind, M_bind, call. rewrite setattr_items_spec, Hea. done.
  - unfold mbind at 1, M_bind at 1, try_except.
    unfold mbind at 1, M_bind at 1, objects_get.
    destruct (users st !! username) as [row|] eqn:Hu; [|done].
    unfold mbind at 1, M_bind at 1, call. rewrite setattr_items_spec.
    destruct (assignable user_class ua); [|done]. simpl.
    rewrite (right_id_L ∅ (∪)).
    unfold mbind at 1, M_bind at 1, user_save. simpl.
    destruct (store_row _ _ _ _ _ _) as [[key t']|e] eqn:Hs.
    + simpl. unfold mbind, M_bind, call. rewrite setattr_items_spec, Hea. done.
    + apply store_row_raises in Hs.
      rewrite bool_decide_eq_false_2; [done|].
      intros ->. repeat (apply elem_of_cons in Hs as [?|Hs]; [discriminate|]).
      by apply elem_of_nil in Hs.
Qed.

(** When the provider accepts the credentials and hands out the attribute
    list [L], [authenticate] is [get_user_obj] on [L], followed by the
    assignment of the tokens to the user it returns. *)
Lemma authenticate_accepted username password tokens L st :
  p_authenticate provider username password = Return tokens →
  p_get_user_attributes provider username tokens = Return L →
  authenticate username password st =
    match get_user_obj cognito_to_dict settings user_class username L st with
    | (Return (Some user), st') =>
        if tokens_assignable user_class
        then (Return (Some (with_tokens user tokens)), st')
        else (Raise TypeError, st')
    | (Return None, st') => (Return None, st')
    | (Raise e, st') => (Raise e, st')
    end.
Proof.
  intros Ha Hg.
  unfold AbstractCognitoBackend_authenticate, try_except, call, get_user.
  rewrite Ha. unfold mbind at 1, M_bind at 1. unfold mbind at 1, M_bind at 1.
  unfold call. rewrite Hg.
  destruct (get_user_obj _ _ _ _ _ _) as [[[user|]|e] st']; [|done|done].
  unfold tokens_assignable, with_tokens, setattr, mbind, M_bind. simpl.
  destruct (is_relation user_class "access_token"); [done|]. simpl.
  destruct (is_relation user_class "id_token"); [done|]. simpl.
  destruct (is_relation user_class "refresh_token"); done.
Qed.


Lemma with_tokens_username user tokens :
  username_of (with_tokens user tokens) = username_of user.
Proof. done. Qed.

Lemma with_tokens_lookup user tokens k :
  k ∉ token_attribute_names →
  obj_dict (with_tokens user tokens) !! k = obj_dict user !! k.
Proof.
  intros Hk. unfold with_tokens. simpl.
  rewrite !lookup_insert_ne; [done|..]; intros <-; apply Hk;
    unfold token_attribute_names; repeat constructor.
Qed.

(** C3: with auto-provisioning disabled and no local record for the
    username, [authenticate] returns [None] although the provider accepted
    the credentials, and the state, with the user table in it, stays as it
    was: no record is created. *)
Theorem authenticate_no_provisioning username password tokens L st :
  create_unknown_users settings = false →
  users st !! username = None →
  p_authenticate provider username password = Return tokens →
  p_get_user_attributes provider username tokens = Return L →
  authenticate username password st = (Return None, st)
  ∧ CognitoBackend_authenticate cognito_to_dict settings user_class provider
      username password st = (Return None, st)
  ∧ users (authenticate username password st).2 !! username = None.
Proof.
  intros Hc Hu Ha Hg.
  assert (E : authenticate username password st = (Return None, st)).
  { rewrite (authenticate_accepted _ _ _ _ _ Ha Hg), get_user_obj_eq.
    unfold row_target. by rewrite Hu, Hc. }
  split; [done|]. split.
  - unfold CognitoBackend_authenticate, mbind, M_bind. by rewrite E.
  - by rewrite E.
Qed.




End AuthenticateSuccess.

(** ** The session binder *)

Lemma with_tokens_getattr user tokens :
  getattr_user (with_tokens user tokens) "access_token"
    = Return (PyStr (access_token tokens))
  ∧ getattr_user (with_tokens user tokens) "id_token"
    = Return (PyStr (id_token tokens))
  ∧ getattr_user (with_tokens user tokens) "refresh_token"
    = Return (PyStr (refresh_token tokens)).
Proof.
  unfold getattr_user, with_tokens. simpl.
  repeat split.
  - by rewrite lookup_insert_ne, lookup_insert_ne, lookup_insert_eq.
  - by rewrite lookup_insert_ne, lookup_insert_eq.
  - by rewrite lookup_insert_eq.
Qed.

Section SessionBinder.
Variable cognito_to_dict : list (string * string) → gmap string string → attrs.
Variable settings : Settings.
Variable user_class : UserModel.
Variable provider : Provider.

Local Abbreviation abstract_authenticate :=
  (AbstractCognitoBackend_authenticate cognito_to_dict settings user_class provider).
Local Abbreviation authenticate :=
  (CognitoBackend_authenticate cognito_to_dict settings user_class provider).

Lemma authenticate_fetch_raises username password tokens e st :
  p_authenticate provider username password = Return tokens →
  p_get_user_attributes provider username tokens = Raise e →
  abstract_authenticate username password st = (Raise e, st).
Proof.
  intros Ha Hg.
  unfold AbstractCognitoBackend_authenticate, try_except, call, get_user.
  rewrite Ha. unfold mbind at 1, M_bind at 1. unfold mbind at 1, M_bind at 1.
  unfold call. by rewrite Hg.
Qed.

(** The three ways [AbstractCognitoBackend.authenticate] ends; none of them
    touches the session or the queued messages. *)
Lemma abstract_authenticate_result username password st :
  (∃ user tokens st',
      abstract_authenticate username password st
        = (Return (Some (with_tokens user tokens)), st')
      ∧ p_authenticate provider username password = Return tokens
      ∧ session st' = session st ∧ flash st' = flash st)
  ∨ abstract_authenticate username password st = (Return None, st)
  ∨ (∃ e st', abstract_authenticate username password st = (Raise e, st')
              ∧ session st' = session st ∧ flash st' = flash st).
Proof.
  destruct (p_authenticate provider username password) as [tokens|e] eqn:Ha.
  - destruct (p_get_user_attributes provider username tokens) as [L|e] eqn:Hg.
    + rewrite (authenticate_accepted _ _ _ _ _ _ _ _ _ Ha Hg), get_user_obj_eq.
      destruct (row_target _ _ _ _) as [[force_insert base]|]; [|right; by left].
      destruct (assignable _ _); [|right; right; by eexists _, _].
      destruct (store_row _ _ _ _ _ _) as [[key t']|e];
        [|right; right; by eexists _, _].
      destruct (tokens_assignable user_class).
      * left. by eexists _, _, _.
      * right. right. by eexists _, _.
    + right. right. exists e, st.
      by rewrite (authenticate_fetch_raises _ _ _ _ _ Ha Hg).
  - rewrite (authenticate_raise _ _ _ _ _ _ _ _ Ha).
    destruct (except_Boto3Error_ClientError e); [|right; right; by exists e, st].
    destruct (handle_error_response e) as [[u|]|e'] eqn:Hh.
    + exfalso. revert Hh. unfold handle_error_response.
      repeat (case_match; try discriminate).
    + right. by left.
    + right. right. by exists e', st.
Qed.

(** The three ways [CognitoBackend.authenticate] ends. *)
Lemma authenticate_result username password st :
  (∃ user tokens st',
      authenticate username password st
        = (Return (Some (with_tokens user tokens)),
           set_session (bound_session tokens) st')
      ∧ p_authenticate provider username password = Return tokens
      ∧ session st' = session st)
  ∨ authenticate username password st = (Return None, st)
  ∨ (∃ e st', authenticate username password st = (Raise e, st')
              ∧ session st' = session st).
Proof.
  remember (authenticate username password st) as res eqn:Hres.
  unfold CognitoBackend_authenticate in Hres.
  unfold mbind at 1, M_bind at 1 in Hres.
  destruct (abstract_authenticate_result username password st)
    as [(u & tokens & st' & E & Ha & Hs & _)|[E|(e & st' & E & Hs & _)]];
    rewrite E in Hres.
  - left. exists u, tokens, st'. split; [|done].
    destruct (with_tokens_getattr u tokens) as (G1 & G2 & G3).
    unfold mbind, M_bind, call in Hres. by rewrite G1, G2, G3 in Hres.
  - right. by left.
  - right. right. by exists e, st'.
Qed.

(** C7, as the code has it: a user returned by [authenticate] carries the
    three tokens as the provider issued them, whatever they are: none of
    them is looked at.  The session holds them under ACCESS_TOKEN,
    ID_TOKEN and REFRESH_TOKEN, its other keys are as they were, and it
    has been saved with them.  When [authenticate] returns [None], or
    raises, the session is what it was before the call. *)
Theorem authenticate_binds_session username password st :
  (∀ user,
     (authenticate username password st).1 = Return (Some user) →
     ∃ tokens,
       p_authenticate provider username password = Return tokens
       ∧ (obj_dict user !! "access_token" = Some (PyStr (access_token tokens))
          ∧ obj_dict user !! "id_token" = Some (PyStr (id_token tokens))
          ∧ obj_dict user !! "refresh_token" = Some (PyStr (refresh_token tokens)))
       ∧ (cache (session (authenticate username password st).2) !! "ACCESS_TOKEN"
            = Some (PyStr (access_token tokens))
          ∧ cache (session (authenticate username password st).2) !! "ID_TOKEN"
            = Some (PyStr (id_token tokens))
          ∧ cache (session (authenticate username password st).2) !! "REFRESH_TOKEN"
            = Some (PyStr (refresh_token tokens)))
       ∧ (∀ k, k ∉ token_session_keys →
            cache (session (authenticate username password st).2) !! k
            = cache (session st) !! k)
       ∧ stored (session (authenticate username password st).2)
         = Some (cache (session (authenticate username password st).2)))
  ∧ ((authenticate username password st).1 = Return None →
       session (authenticate username password st).2 = session st)
  ∧ (∀ e, (authenticate username password st).1 = Raise e →
       session (authenticate username password st).2 = session st).
Proof.
  destruct (authenticate_result username password st)
    as [(u & tokens & st' & E & Ha & Hs)|[E|(e & st' & E & Hs)]]; rewrite E; simpl.
  - split; [|split; [intros ?; discriminate|intros ? ?; discriminate]].
    intros user Hu. injection Hu as <-. exists tokens.
    split; [done|].
    split.
    { unfold with_tokens. simpl. repeat split.
      - by rewrite lookup_insert_ne, lookup_insert_ne, lookup_insert_eq.
      - by rewrite lookup_insert_ne, lookup_insert_eq.
      - by rewrite lookup_insert_eq. }
    split.
    { repeat split.
      - by rewrite lookup_insert_ne, lookup_insert_ne, lookup_insert_eq.
      - by rewrite lookup_insert_ne, lookup_insert_eq.
      - by rewrite lookup_insert_eq. }
    split; [|done].
    intros k Hk. rewrite Hs.
    rewrite !lookup_insert_ne; [done|..]; intros <-; apply Hk;
      unfold token_session_keys; repeat constructor.
  - split; [intros ? ?; discriminate|]. done.
  - split; [intros ? ?; discriminate|]. done.
Qed.
End SessionBinder.

(** ** Logout *)

(** A request whose session has no true REFRESH_TOKEN is turned away by
    [TokenMixin], whatever view stands behind it. *)
Lemma TokenMixin_dispatch_denies (next : M HttpResponse) (st : State) :
  truthy_opt (cache (session st) !! "REFRESH_TOKEN") = false →
  TokenMixin_dispatch next st = (Return Denied, st).
Proof.
  intros Ht. unfold TokenMixin_dispatch, session_get, gets, mbind, M_bind.
  by rewrite Ht.
Qed.

Lemma ProfileView_dispatch_denies cognito_to_dict settings provider get_cognito
    is_authenticated st :
  truthy_opt (cache (session st) !! "REFRESH_TOKEN") = false →
  ProfileView_dispatch cognito_to_dict settings provider get_cognito is_authenticated st
  = (Return Denied, st).
Proof.
  intros Ht. unfold ProfileView_dispatch, LoginRequiredMixin_dispatch.
  destruct is_authenticated; simpl; [|done].
  by apply TokenMixin_dispatch_denies.
Qed.

(** C8: after [LogoutView.dispatch] the session holds none of the three
    token keys and its stored row is gone, so the session of a following
    request holds none of them either, and a following request to the
    profile view is denied, whether or not its user counts as logged in.
    Already [request.session.delete()], the statement that the view adds
    to Django's logout, leaves the following request without the keys. *)
Theorem logout_then_profile_denied
    (cognito_to_dict : list (string * string) → gmap string string → attrs)
    (settings : Settings)
    (provider : Provider) (get_cognito : M (string * Tokens))
    (is_authenticated : bool) (st : State) :
  (∀ k, k ∈ token_session_keys →
     cache (session (LogoutView_dispatch st).2) !! k = None)
  ∧ stored (session (LogoutView_dispatch st).2) = None
  ∧ (∀ k, k ∈ token_session_keys →
       cache (session (next_request (LogoutView_dispatch st).2)) !! k = None)
  ∧ (ProfileView_dispatch cognito_to_dict settings provider get_cognito
       is_authenticated
       (next_request (LogoutView_dispatch st).2)).1 = Return Denied
  ∧ (∀ k, cache (session (next_request (session_delete st).2)) !! k = None).
Proof.
  split; [|split; [|split; [|split]]].
  - intros k _. apply lookup_empty.
  - done.
  - intros k _. apply lookup_empty.
  - by rewrite ProfileView_dispatch_denies.
  - intros k. apply lookup_empty.
Qed.

(** ** The attribute partition *)

Lemma spec_cognito_to_dict_acc (L : list (string * string))
    (M' : gmap string string) (acc : attrs) (k : string) :
  is_Some (acc !! k) ∨ (∃ name, name ∈ L.*1 ∧ default name (M' !! name) = k) →
  is_Some (foldl (λ d a, <[default a.1 (M' !! a.1) := PyStr a.2]> d) acc L !! k).
Proof.
  revert acc. induction L as [|[name value] L IH]; intros acc Hk; simpl.
  - destruct Hk as [Hk|(name & Hin & _)]; [done|]. by apply elem_of_nil in Hin.
  - apply IH. cbn [fst snd]. destruct Hk as [Hk|(name' & Hin & Hren)].
    + left. destruct (decide (default name (M' !! name) = k)) as [->|Hne].
      * rewrite lookup_insert_eq. eauto.
      * by rewrite lookup_insert_ne.
    + rewrite fmap_cons in Hin. cbn [fst] in Hin.
      apply elem_of_cons in Hin as [->|Hin].
      * left. rewrite Hren, lookup_insert_eq. eauto.
      * right. eauto.
Qed.

(** Every key of the attribute list is, renamed, a key of the dictionary. *)
Lemma spec_cognito_to_dict_keys (L : list (string * string))
    (M' : gmap string string) (name : string) :
  name ∈ L.*1 →
  is_Some (spec_cognito_to_dict L M' !! default name (M' !! name)).
Proof.
  intros Hin. apply spec_cognito_to_dict_acc. right. eauto.
Qed.

(** C5, as the code has it: the two outputs of the loop are disjoint and
    together they are the dictionary of [cognito_to_dict]; a key of the
    dictionary is in the user fields, with its value, exactly when it names
    a field of the user model, and in the extra attributes, with its
    value, exactly when it does not; so every key of the attribute list,
    under its local name where the mapping has one and under its own name
    otherwise, is a key of exactly one of the two. *)
Theorem attribute_partition
    (cognito_to_dict : list (string * string) → gmap string string → attrs)
    (settings : Settings) (user_class : UserModel) (L : list (string * string)) :
  user_attrs_of cognito_to_dict settings user_class L
    ∪ extra_attrs_of cognito_to_dict settings user_class L
  = cognito_to_dict L (CognitoUser_COGNITO_ATTR_MAPPING settings)
  ∧ user_attrs_of cognito_to_dict settings user_class L
      ##ₘ extra_attrs_of cognito_to_dict settings user_class L
  ∧ (∀ k,
       user_attrs_of cognito_to_dict settings user_class L !! k
         = (if decide (k ∈ get_fields user_class)
            then cognito_to_dict L (CognitoUser_COGNITO_ATTR_MAPPING settings) !! k
            else None)
       ∧ extra_attrs_of cognito_to_dict settings user_class L !! k
         = (if decide (k ∈ get_fields user_class)
            then None
            else cognito_to_dict L (CognitoUser_COGNITO_ATTR_MAPPING settings) !! k))
  ∧ (cognito_to_dict L (CognitoUser_COGNITO_ATTR_MAPPING settings)
       = spec_cognito_to_dict L (CognitoUser_COGNITO_ATTR_MAPPING settings) →
     ∀ name, name ∈ L.*1 →
       let k := default name (CognitoUser_COGNITO_ATTR_MAPPING settings !! name) in
       ((k ∈ get_fields user_class
         ∧ is_Some (user_attrs_of cognito_to_dict settings user_class L !! k)
         ∧ extra_attrs_of cognito_to_dict settings user_class L !! k = None)
        ∨ ((k ∉ get_fields user_class)
           ∧ is_Some (extra_attrs_of cognito_to_dict settings user_class L !! k)
           ∧ user_attrs_of cognito_to_dict settings user_class L !! k = None))).
Proof.
  unfold user_attrs_of, extra_attrs_of.
  set (d := cognito_to_dict L (CognitoUser_COGNITO_ATTR_MAPPING settings)).
  set (F := get_fields user_class).
  assert (Hl : ∀ k,
            (split_attrs F d).1 !! k = (if decide (k ∈ F) then d !! k else None)
            ∧ (split_attrs F d).2 !! k = (if decide (k ∈ F) then None else d !! k)).
  { intros k. apply split_attrs_lookup. }
  split; [|split; [|split]].
  - apply map_eq. intros k. destruct (Hl k) as [E1 E2].
    destruct (decide (k ∈ F)) as [HF|HF].
    + destruct (d !! k) as [v|] eqn:E.
      * by apply lookup_union_Some_l.
      * apply lookup_union_None. by rewrite E1, E2.
    + rewrite lookup_union_r; [done|]. done.
  - apply map_disjoint_spec. intros k v1 v2 H1 H2.
    destruct (Hl k) as [E1 E2]. rewrite E1 in H1. rewrite E2 in H2.
    by destruct (decide (k ∈ F)).
  - done.
  - intros Hd name Hin.
    set (k := default name (CognitoUser_COGNITO_ATTR_MAPPING settings !! name)).
    destruct (Hl k) as [E1 E2].
    assert (Hk : is_Some (d !! k)).
    { rewrite Hd. by apply spec_cognito_to_dict_keys. }
    rewrite E1, E2. destruct (decide (k ∈ F)); [left|right]; done.
Qed.

(** Whatever dictionary [cognito_to_dict] returns, the user fields hold no
    key that is not a field of the user model: under the web application's
    own settings custom:api_key is present in the mapping, and its local
    name api_key is no field of the user model. *)
Lemma mapped_key_outside_fields
    (cognito_to_dict : list (string * string) → gmap string string → attrs) :
  ¬ spec_partition [("custom:api_key", "k1")]
      (CognitoUser_COGNITO_ATTR_MAPPING webapp_settings)
      (user_attrs_of cognito_to_dict webapp_settings auth_User
         [("custom:api_key", "k1")])
      (extra_attrs_of cognito_to_dict webapp_settings auth_User
         [("custom:api_key", "k1")]).
Proof.
  intros H. specialize (H "custom:api_key").
  assert (Hin : "custom:api_key" ∈ [("custom:api_key", "k1")].*1) by (simpl; left).
  specialize (H Hin).
  assert (Hm : CognitoUser_COGNITO_ATTR_MAPPING webapp_settings !! "custom:api_key"
               = Some "api_key") by (vm_compute; reflexivity).
  rewrite Hm in H. destruct H as [[v Hv] _].
  apply user_attrs_fields in Hv.
  apply (bool_decide_pack _) in Hv. vm_compute in Hv. exact Hv.
Qed.

(** The partition as section 8 words it fails there: custom:api_key is a key
    of the attribute list and present in the mapping, and it is not among
    the mapped fields. *)
Lemma spec_partition_fails :
  ¬ spec_partition [("custom:api_key", "k1")]
      (CognitoUser_COGNITO_ATTR_MAPPING webapp_settings)
      (user_attrs_of spec_cognito_to_dict webapp_settings auth_User
         [("custom:api_key", "k1")])
      (extra_attrs_of spec_cognito_to_dict webapp_settings auth_User
         [("custom:api_key", "k1")]).
Proof. exact (mapped_key_outside_fields spec_cognito_to_dict). Qed.

(** ** The error policy, site by site *)

Lemma two_tier_handle_error_response (A : Type) (e : PyExc) (kind : string) :
  error_kind e = Some kind →
  except_Boto3Error_ClientError e = true
  ∧ @handle_error_response A e = if suppressed kind then Return None else Raise e.
Proof.
  intros Hk. split.
  - by destruct (error_kind_ClientError e kind Hk) as (response & err & -> & _).
  - by apply handle_error_response_kind.
Qed.

Lemma SignUpView_form_valid_raises (e : PyExc) (cleaned_data : gmap string string)
    (st : State) :
  is_Some (cleaned_data !! "username") →
  is_Some (cleaned_data !! "password1") →
  is_Some (cleaned_data !! "password2") →
  is_Some (cleaned_data !! "first_name") →
  is_Some (cleaned_data !! "last_name") →
  SignUpView_form_valid (failing_provider e) cleaned_data st = (Raise e, st).
Proof.
  intros [u Hu] [p1 Hp1] [p2 Hp2] [fn Hfn] [ln Hln].
  unfold SignUpView_form_valid, mbind, M_bind, call, dict_pop.
  rewrite Hu.
  rewrite lookup_delete_ne, Hp1 by done.
  rewrite !lookup_delete_ne, Hp2 by done.
  rewrite !lookup_delete_ne, Hfn by done.
  rewrite lookup_insert_ne, !lookup_delete_ne, Hln by done.
  done.
Qed.

(** C9, as the code has it: the two-tier policy holds where the provider
    call stands inside [try ... except] with [handle_error_response], that
    is at the provider's [authenticate] in [authenticate] and at the
    provider's [register] in [register].  At the other sites, which are the
    fetch of the attributes in [authenticate], [validate_user], the sign-up
    view and the profile-update view, every error of the provider reaches
    the caller, the two suppressed kinds included. *)
Theorem two_tier_sites
    (cognito_to_dict : list (string * string) → gmap string string → attrs)
    (settings : Settings) (user_class : UserModel)
    (get_cognito : M (string * Tokens)) (st : State) :
  (∀ username password,
     two_tier
       (λ e, (AbstractCognitoBackend_authenticate cognito_to_dict settings user_class
                (failing_provider e) username password st).1)
       None)
  ∧ (∀ username password email first_name last_name,
       two_tier
         (λ e, (CognitoBackend_register (failing_provider e)
                  username password email first_name last_name st).1)
         None)
  ∧ (∀ provider username password tokens e,
       p_authenticate provider username password = Return tokens →
       p_get_user_attributes provider username tokens = Raise e →
       AbstractCognitoBackend_authenticate cognito_to_dict settings user_class
         provider username password st = (Raise e, st))
  ∧ (∀ e confirmation_code username,
       CognitoBackend_validate_user (failing_provider e) confirmation_code username st
       = (Raise e, st))
  ∧ (∀ e cleaned_data,
       is_Some (cleaned_data !! "username") →
       is_Some (cleaned_data !! "password1") →
       is_Some (cleaned_data !! "password2") →
       is_Some (cleaned_data !! "first_name") →
       is_Some (cleaned_data !! "last_name") →
       SignUpView_form_valid (failing_provider e) cleaned_data st = (Raise e, st))
  ∧ (∀ e cleaned_data c st' attr_map,
       get_cognito st = (Return c, st') →
       COGNITO_ATTR_MAPPING settings = Some attr_map →
       UpdateProfileView_form_valid settings (failing_provider e) get_cognito
         cleaned_data st = (Raise e, st')).
Proof.
  split; [|split; [|split; [|split; [|split]]]].
  - intros username password e kind Hk.
    destruct (two_tier_handle_error_response User e kind Hk) as [Hc Hh].
    unfold AbstractCognitoBackend_authenticate, try_except, call. simpl.
    by rewrite Hc, Hh.
  - intros username password email first_name last_name e kind Hk.
    destruct (two_tier_handle_error_response attrs e kind Hk) as [Hc Hh].
    unfold CognitoBackend_register, try_except, call. simpl.
    by rewrite Hc, Hh.
  - intros provider username password tokens e Ha Hg.
    unfold AbstractCognitoBackend_authenticate, try_except, call, get_user.
    rewrite Ha. unfold mbind at 1, M_bind at 1. unfold mbind at 1, M_bind at 1.
    unfold call. by rewrite Hg.
  - done.
  - intros e cleaned_data. apply SignUpView_form_valid_raises.
  - intros e cleaned_data c st' attr_map Hc Hm.
    unfold UpdateProfileView_form_valid, mbind, M_bind, call.
    by rewrite Hc, Hm.
Qed.

(** The policy as section 7 words it fails at [validate_user]: a
    "not authorized" error of the provider is raised, not turned into an
    ordinary result. *)
Lemma validate_user_not_two_tier :
  ¬ two_tier
      (λ e, (CognitoBackend_validate_user (failing_provider e)
               "123456" "alice" empty_state).1)
      tt.
Proof.
  intros H.
  specialize (H not_authorized "NotAuthorizedException" eq_refl).
  vm_compute in H. discriminate.
Qed.


(** ** The theorems at concrete requests *)

Lemma authenticate_provider_error_witness :
  (AbstractCognitoBackend_authenticate spec_cognito_to_dict webapp_settings auth_User
     (failing_provider not_authorized) "alice" "wrong" alice_state).1 = Return None
  ∧ (AbstractCognitoBackend_authenticate spec_cognito_to_dict webapp_settings auth_User
       (failing_provider not_authorized) "alice" "wrong" alice_state).2 = alice_state.
Proof.
  destruct (authenticate_provider_error spec_cognito_to_dict webapp_settings auth_User
              (failing_provider not_authorized) "alice" "wrong" not_authorized
              alice_state eq_refl)
    as (Hnone & _ & _ & Hstate & _).
  split; [|exact Hstate].
  apply (Hnone "NotAuthorizedException"); [reflexivity|by left].
Defined.

Lemma authenticate_no_provisioning_witness :
  AbstractCognitoBackend_authenticate spec_cognito_to_dict no_provisioning_settings
    auth_User (accepting_provider example_tokens example_attributes)
    "alice" "pw" empty_state = (Return None, empty_state).
Proof.
  exact (proj1 (authenticate_no_provisioning spec_cognito_to_dict
                  no_provisioning_settings auth_User
                  (accepting_provider example_tokens example_attributes)
                  "alice" "pw" example_tokens example_attributes empty_state
                  eq_refl eq_refl eq_refl eq_refl)).
Defined.





Lemma authenticate_binds_session_witness :
  cache (session (CognitoBackend_authenticate spec_cognito_to_dict default_settings
                    auth_User (accepting_provider example_tokens example_attributes)
                    "alice" "pw" empty_state).2) !! "REFRESH_TOKEN"
  = Some (PyStr "refresh-1").
Proof.
  edestruct (proj1 (authenticate_binds_session spec_cognito_to_dict default_settings
                      auth_User (accepting_provider example_tokens example_attributes)
                      "alice" "pw" empty_state))
    as (tokens & Ha & _ & (_ & _ & Hr) & _).
  { vm_compute. reflexivity. }
  injection Ha as <-. exact Hr.
Defined.

Lemma attribute_partition_witness :
  is_Some (extra_attrs_of spec_cognito_to_dict webapp_settings auth_User
             [("custom:api_key", "k1")] !! "api_key")
  ∧ user_attrs_of spec_cognito_to_dict webapp_settings auth_User
      [("custom:api_key", "k1")] !! "api_key" = None.
Proof.
  assert (Hin : "custom:api_key" ∈ [("custom:api_key", "k1")].*1) by (simpl; left).
  destruct (proj2 (proj2 (proj2
              (attribute_partition spec_cognito_to_dict webapp_settings auth_User
                 [("custom:api_key", "k1")])))
              eq_refl "custom:api_key" Hin)
    as [(Hfield & _ & _)|(_ & Hextra & Huser)].
  - exfalso. apply (bool_decide_pack _) in Hfield. vm_compute in Hfield. exact Hfield.
  - split; [exact Hextra|exact Huser].
Defined.

Lemma two_tier_sites_witness :
  SignUpView_form_valid (failing_provider not_authorized) signup_form empty_state
  = (Raise not_authorized, empty_state).
Proof.
  destruct (two_tier_sites spec_cognito_to_dict default_settings auth_User
              (mret ("alice", example_tokens)) empty_state)
    as (_ & _ & _ & _ & Hsignup & _).
  apply Hsignup; eexists; vm_compute; reflexivity.
Defined.


(** ** Where the local record departs from the specification *)




(** C7 as section 8 words it fails for a provider that issues an empty
    refresh token: the user is returned and carries it. *)
Lemma empty_refresh_token_returned :
  ¬ spec_tokens_nonempty
      (CognitoBackend_authenticate spec_cognito_to_dict default_settings auth_User
         (accepting_provider (mkTokens "access-1" "id-1" "") example_attributes)
         "alice" "pw" empty_state).
Proof.
  intros H.
  edestruct H as (s & Hs & Hne).
  { vm_compute. reflexivity. }
  { unfold token_attribute_names. do 2 right. left. }
  vm_compute in Hs. injection Hs as <-. by apply Hne.
Qed.

(** * Further properties of the backend *)

(** A cleaning that went through found every assigned value acceptable,
    and the cleaned dictionary holds what the column stores for it. *)
Lemma clean_fields_Some (um : UserModel) (names : list string) (d c : attrs) k v :
  clean_fields um names d = Return c → k ∈ names → d !! k = Some v →
  ∃ w, clean um k v = inl w ∧ c !! k = Some w.
Proof.
  revert c. induction names as [|k0 names IH]; intros c Hc Hin Hk;
    [by apply elem_of_nil in Hin|].
  simpl in Hc. destruct (d !! k0) as [v0|] eqn:Hk0.
  - destruct (clean um k0 v0) as [w0|r] eqn:Hcl; [|discriminate].
    destruct (clean_fields um names d) as [c'|e] eqn:Hc'; [|discriminate].
    injection Hc as <-. destruct (decide (k = k0)) as [->|Hne].
    + rewrite Hk0 in Hk. injection Hk as <-. exists w0. by rewrite lookup_insert_eq.
    + apply elem_of_cons in Hin as [?|Hin]; [done|].
      destruct (IH c' eq_refl Hin Hk) as (w & ? & ?).
      exists w. by rewrite lookup_insert_ne.
  - apply elem_of_cons in Hin as [->|Hin]; [congruence|]. by apply IH.
Qed.

(** What a write that went through has done. *)
Lemma store_row_returns (um : UserModel) old name dirty base t key t' :
  store_row um old name dirty base t = Return (key, t') →
  ∃ cleaned,
    clean_fields um (get_fields um) dirty = Return cleaned
    ∧ username_key cleaned name = Return key
    ∧ match old with Some k => delete k t | None => t end !! key = None
    ∧ t' = <[key := delete "username" cleaned ∪ base]>
             (match old with Some k => delete k t | None => t end).
Proof.
  unfold store_row.
  destruct (clean_fields um (get_fields um) dirty) as [cleaned|e] eqn:Hc;
    [|discriminate].
  destruct (username_key cleaned name) as [key'|e] eqn:Hk; [|discriminate].
  case_bool_decide as Hfree; [discriminate|]. intros [= <- <-].
  exists cleaned. split; [done|]. split; [done|]. split; [|done].
  by apply eq_None_not_Some.
Qed.

(** The row that is written for is the one of the username: in both ways
    of writing, the table without it is the table that the new row goes
    into. *)
Lemma row_target_table (um : UserModel) create username t force_insert base :
  row_target um create username t = Some (force_insert, base) →
  match (if force_insert then None else Some username) with
  | Some k => delete k t
  | None => t
  end = delete username t.
Proof.
  unfold row_target. destruct (t !! username) as [row|] eqn:Hu.
  - by intros [= <- <-].
  - destruct create; [|discriminate]. intros [= <- <-]. by rewrite delete_id.
Qed.

(** Writing the same user fields a second time changes nothing. *)
Lemma table_after_idemp (um : UserModel) create username ua t :
  table_after um create username ua (table_after um create username ua t)
  = table_after um create username ua t.
Proof.
  remember (table_after um create username ua t) as T eqn:HT.
  unfold table_after in HT.
  destruct (row_target um create username t) as [[force_insert base]|] eqn:Ht.
  2:{ subst T. unfold table_after. by rewrite Ht. }
  destruct (assignable um ua) eqn:Hass.
  2:{ subst T. unfold table_after. by rewrite Ht, Hass. }
  destruct (store_row um _ username (columns um ua) base t) as [[key t']|e] eqn:Hs.
  2:{ subst T. unfold table_after. by rewrite Ht, Hass, Hs. }
  apply store_row_returns in Hs as (cleaned & Hc & Hkey & Hfree & ->).
  rewrite (row_target_table _ _ _ _ _ _ Ht) in *. subst T.
  unfold table_after, row_target. rewrite Hass.
  destruct (decide (key = username)) as [->|Hne].
  - rewrite lookup_insert_eq. unfold store_row. rewrite Hc, Hkey.
    rewrite delete_insert_eq, (delete_id (delete _ _)) by apply lookup_delete_eq.
    rewrite Hfree.
    rewrite bool_decide_eq_false_2 by (by intros [? ?]).
    by rewrite (assoc_L (∪)), (idemp (∪) _).
  - rewrite lookup_insert_ne, lookup_delete_eq by done.
    destruct create; [|done].
    unfold store_row. rewrite Hc, Hkey, lookup_insert_eq.
    by rewrite bool_decide_eq_true_2 by eauto.
Qed.

Section BackendFrame.
Variable cognito_to_dict : list (string * string) → gmap string string → attrs.
Variable settings : Settings.
Variable user_class : UserModel.
Variable provider : Provider.

Local Abbreviation authenticate :=
  (AbstractCognitoBackend_authenticate cognito_to_dict settings user_class provider).
Local Abbreviation user_attrs :=
  (user_attrs_of cognito_to_dict settings user_class).
Local Abbreviation extra_attrs :=
  (extra_attrs_of cognito_to_dict settings user_class).

(** The state that [get_user_obj] leaves. *)
Lemma get_user_obj_state username L st :
  (get_user_obj cognito_to_dict settings user_class username L st).2
  = set_users (λ _, table_after user_class (create_unknown_users settings) username
                      (user_attrs L) (users st)) st.
Proof.
  rewrite get_user_obj_eq. unfold table_after.
  destruct (row_target _ _ _ _) as [[force_insert base]|]; [|by destruct st].
  destruct (assignable _ _); [|by destruct st].
  destruct (store_row _ _ _ _ _ _) as [[key t']|e]; [done|by destruct st].
Qed.

(** The state that [authenticate] leaves once the provider has accepted
    the credentials and handed out [L]. *)
Lemma authenticate_accepted_state username password tokens L st :
  p_authenticate provider username password = Return tokens →
  p_get_user_attributes provider username tokens = Return L →
  (authenticate username password st).2
  = set_users (λ _, table_after user_class (create_unknown_users settings) username
                      (user_attrs L) (users st)) st.
Proof.
  intros Ha Hg. rewrite <- get_user_obj_state.
  rewrite (authenticate_accepted _ _ _ _ _ _ _ _ _ Ha Hg).
  destruct (get_user_obj _ _ _ _ _ _) as [[[user|]|e] st']; [|done|done].
  by destruct (tokens_assignable user_class).
Qed.

(** The state after [authenticate]: as it was, or with the user table that
    [get_user_obj] leaves for the attribute list of the provider. *)
Lemma authenticate_state username password st :
  (authenticate username password st).2 = st
  ∨ ∃ tokens L,
      p_authenticate provider username password = Return tokens
      ∧ p_get_user_attributes provider username tokens = Return L
      ∧ (authenticate username password st).2
        = set_users (λ _, table_after user_class (create_unknown_users settings)
                            username (user_attrs L) (users st)) st.
Proof.
  destruct (p_authenticate provider username password) as [tokens|e] eqn:Ha.
  - destruct (p_get_user_attributes provider username tokens) as [L|e] eqn:Hg.
    + right. exists tokens, L. split; [done|]. split; [done|].
      by apply authenticate_accepted_state with tokens.
    + left. by rewrite (authenticate_fetch_raises _ _ _ _ _ _ _ _ _ Ha Hg).
  - left. rewrite (authenticate_raise _ _ _ _ _ _ _ _ Ha).
    by destruct (except_Boto3Error_ClientError e).
Qed.


(** X2: authenticating a second time, with the provider giving the same
    answers, changes nothing: the state after the second call is the state
    after the first. *)
Theorem authenticate_twice username password st :
  (AbstractCognitoBackend_authenticate cognito_to_dict settings user_class provider
     username password
     (AbstractCognitoBackend_authenticate cognito_to_dict settings user_class provider
        username password st).2).2
  = (AbstractCognitoBackend_authenticate cognito_to_dict settings user_class provider
       username password st).2.
Proof.
  destruct (p_authenticate provider username password) as [tokens|e] eqn:Ha.
  - destruct (p_get_user_attributes provider username tokens) as [L|e] eqn:Hg.
    + rewrite !(authenticate_accepted_state _ _ _ _ _ Ha Hg).
      unfold set_users. simpl. by rewrite table_after_idemp.
    + by rewrite !(authenticate_fetch_raises _ _ _ _ _ _ _ _ _ Ha Hg).
  - rewrite !(authenticate_raise _ _ _ _ _ _ _ _ Ha).
    by destruct (except_Boto3Error_ClientError e).
Qed.

(** X3: whatever the outcome, [authenticate] leaves the session and the
    queued messages as they were, and every row that the table held under
    another username stays as it was.  What changes is confined to the row
    of the username and to the row of one more name, the one that the
    record is written under when the user fields bring a username.  When
    they bring none, every other username reads as before and no username
    leaves the table. *)
Theorem authenticate_frame username password st :
  session (AbstractCognitoBackend_authenticate cognito_to_dict settings user_class
             provider username password st).2 = session st
  ∧ flash (AbstractCognitoBackend_authenticate cognito_to_dict settings user_class
             provider username password st).2 = flash st
  ∧ (∀ other row, other ≠ username → users st !! other = Some row →
       users (AbstractCognitoBackend_authenticate cognito_to_dict settings user_class
                provider username password st).2 !! other = Some row)
  ∧ (∃ key, ∀ other, other ≠ username → other ≠ key →
       users (AbstractCognitoBackend_authenticate cognito_to_dict settings user_class
                provider username password st).2 !! other = users st !! other)
  ∧ ((∀ tokens L,
        p_authenticate provider username password = Return tokens →
        p_get_user_attributes provider username tokens = Return L →
        user_attrs_of cognito_to_dict settings user_class L !! "username" = None) →
     (∀ other, other ≠ username →
        users (AbstractCognitoBackend_authenticate cognito_to_dict settings user_class
                 provider username password st).2 !! other = users st !! other)
     ∧ dom (users st)
       ⊆ dom (users (AbstractCognitoBackend_authenticate cognito_to_dict settings
                       user_class provider username password st).2)).
Proof.
  destruct (authenticate_state username password st) as [E|(tokens & L & Ha & Hg & E)];
    rewrite E.
  { split; [done|]. split; [done|]. split; [done|]. split; [by exists username|].
    done. }
  simpl. split; [done|]. split; [done|].
  unfold table_after.
  destruct (row_target _ _ _ _) as [[force_insert base]|] eqn:Ht.
  2:{ split; [done|]. split; [by exists username|]. done. }
  destruct (assignable _ _).
  2:{ split; [done|]. split; [by exists username|]. done. }
  destruct (store_row _ _ _ _ _ _) as [[key t']|e] eqn:Hs.
  2:{ split; [done|]. split; [by exists username|]. done. }
  apply store_row_returns in Hs as (cleaned & Hc & Hkey & Hfree & ->).
  rewrite (row_target_table _ _ _ _ _ _ Ht) in *.
  split; [|split].
  - intros other row Hne Ho. destruct (decide (other = key)) as [->|Hk].
    + rewrite lookup_delete_ne in Hfree by done. congruence.
    + by rewrite lookup_insert_ne, lookup_delete_ne.
  - exists key. intros other Hne Hk. by rewrite lookup_insert_ne, lookup_delete_ne.
  - intros Hno. specialize (Hno tokens L Ha Hg).
    assert (key = username) as ->.
    { pose proof (clean_fields_lookup _ _ _ _ "username" Hc) as Hl.
      rewrite columns_lookup, Hno in Hl.
      assert (Hn : cleaned !! "username" = None) by (by repeat case_decide).
      unfold username_key in Hkey. rewrite Hn in Hkey. by injection Hkey. }
    split.
    + intros other Hne. by rewrite lookup_insert_ne, lookup_delete_ne.
    + rewrite dom_insert_L, dom_delete_L. intros x Hx.
      destruct (decide (x = username)); set_solver.
Qed.
End BackendFrame.

Lemma handle_error_response_not_user (A : Type) (e : PyExc) (a : A) :
  @handle_error_response A e ≠ Return (Some a).
Proof.
  unfold handle_error_response. repeat (case_match; try discriminate).
Qed.

Section BackendOutcomes.
Variable cognito_to_dict : list (string * string) → gmap string string → attrs.
Variable settings : Settings.
Variable user_class : UserModel.
Variable provider : Provider.

Local Abbreviation authenticate :=
  (AbstractCognitoBackend_authenticate cognito_to_dict settings user_class provider).
Local Abbreviation user_attrs :=
  (user_attrs_of cognito_to_dict settings user_class).
Local Abbreviation extra_attrs :=
  (extra_attrs_of cognito_to_dict settings user_class).

(** What [authenticate] returns once the provider has accepted the
    credentials and handed out [L]: [None] exactly when there is no row to
    write for. *)
Lemma authenticate_accepted_None username password tokens L st :
  p_authenticate provider username password = Return tokens →
  p_get_user_attributes provider username tokens = Return L →
  (authenticate username password st).1 = Return None
  ↔ row_target user_class (create_unknown_users settings) username (users st) = None.
Proof.
  intros Ha Hg.
  rewrite (authenticate_accepted _ _ _ _ _ _ _ _ _ Ha Hg), get_user_obj_eq.
  destruct (row_target _ _ _ _) as [[force_insert base]|]; [|done].
  destruct (assignable _ _); [|done].
  destruct (store_row _ _ _ _ _ _) as [[key t']|e]; [|done].
  by destruct (tokens_assignable user_class).
Qed.

Lemma row_target_None (um : UserModel) create username t :
  row_target um create username t = None ↔ create = false ∧ t !! username = None.
Proof.
  unfold row_target. destruct (t !! username); [by split; [|intros [_ ?]]|].
  by destruct create; split; [|intros [? _]|..].
Qed.


(** X5: [authenticate] returns [None] in exactly two situations: the
    provider refused with an error whose code is one of the two suppressed
    ones, or it accepted and auto-provisioning is disabled with no local
    record for the username. *)
Theorem authenticate_none_iff username password st :
  (authenticate username password st).1 = Return None
  ↔ (∃ e kind,
       p_authenticate provider username password = Raise e
       ∧ error_kind e = Some kind ∧ suppressed kind = true)
    ∨ (∃ tokens L,
         p_authenticate provider username password = Return tokens
         ∧ p_get_user_attributes provider username tokens = Return L
         ∧ create_unknown_users settings = false
         ∧ users st !! username = None).
Proof.
  split.
  - intros Hr.
    destruct (p_authenticate provider username password) as [tokens|e] eqn:Ha.
    + right.
      destruct (p_get_user_attributes provider username tokens) as [L|e] eqn:Hg.
      * exists tokens, L. split; [done|]. split; [done|].
        apply row_target_None with user_class.
        by apply (authenticate_accepted_None _ _ _ _ st Ha Hg).
      * rewrite (authenticate_fetch_raises _ _ _ _ _ _ _ _ _ Ha Hg) in Hr.
        discriminate.
    + left. rewrite (authenticate_raise _ _ _ _ _ _ _ _ Ha) in Hr.
      destruct (except_Boto3Error_ClientError e); simpl in Hr; [|discriminate].
      destruct (error_kind e) as [kind|] eqn:Hk.
      * exists e, kind. split; [done|]. split; [done|].
        rewrite (handle_error_response_kind _ _ _ Hk) in Hr.
        unfold suppressed. by case_bool_decide.
      * destruct (handle_error_response_no_kind User e Hk) as [E|[E|E]];
          rewrite E in Hr; discriminate.
  - intros [(e & kind & Ha & Hk & Hs)|(tokens & L & Ha & Hg & Hc & Hu)].
    + rewrite (authenticate_raise _ _ _ _ _ _ _ _ Ha).
      destruct (two_tier_handle_error_response User e kind Hk) as [Hcaught Hh].
      rewrite Hcaught. simpl. by rewrite Hh, Hs.
    + apply (authenticate_accepted_None _ _ _ _ st Ha Hg).
      by apply row_target_None.
Qed.

End BackendOutcomes.

Section BackendUser.
Variable cognito_to_dict : list (string * string) → gmap string string → attrs.
Variable settings : Settings.
Variable user_class : UserModel.
Variable provider : Provider.

Local Abbreviation abstract_authenticate :=
  (AbstractCognitoBackend_authenticate cognito_to_dict settings user_class provider).
Local Abbreviation authenticate :=
  (CognitoBackend_authenticate cognito_to_dict settings user_class provider).
Local Abbreviation user_attrs :=
  (user_attrs_of cognito_to_dict settings user_class).
Local Abbreviation extra_attrs :=
  (extra_attrs_of cognito_to_dict settings user_class).

(** On a field of the model that is none of the three token names, the
    returned user has what the user fields assigned. *)
Lemma returned_user_field username base L tokens k :
  k ∈ get_fields user_class → k ∉ token_attribute_names →
  obj_dict (with_tokens (mkUser username base (extra_attrs L ∪ user_attrs L)) tokens)
    !! k
  = user_attrs L !! k.
Proof.
  intros HF Ht. rewrite with_tokens_lookup by done. simpl.
  apply lookup_union_r.
  destruct (extra_attrs L !! k) as [v|] eqn:E; [|done].
  exfalso. by eapply extra_attrs_not_fields.
Qed.

(** X7: a user returned by [authenticate] has a row in the user table
    under the username that the instance is stored under.  On every field
    of the user model, the username and the three token names apart, a
    value assigned on the instance is one that its column takes, and the
    row holds what the column stores for it, which need not be the value
    assigned; a field not assigned is in the row as it was loaded.  The
    username of the instance is the one of the call, unless a username
    was assigned: then it is the one that the column stores for it. *)
Theorem authenticate_user_in_sync username password st user :
  (AbstractCognitoBackend_authenticate cognito_to_dict settings user_class provider
     username password st).1 = Return (Some user) →
  ∃ row,
    users (AbstractCognitoBackend_authenticate cognito_to_dict settings user_class
             provider username password st).2 !! username_of user = Some row
    ∧ (∀ k v, k ∈ get_fields user_class → k ∉ token_attribute_names →
              k ≠ "username" → obj_dict user !! k = Some v →
              ∃ w, clean user_class k v = inl w ∧ row !! k = Some w)
    ∧ (∀ k, k ∈ get_fields user_class → k ∉ token_attribute_names →
            k ≠ "username" → obj_dict user !! k = None →
            row !! k = loaded user !! k)
    ∧ (username_of user = username
       ∨ ∃ v, obj_dict user !! "username" = Some v
              ∧ clean user_class "username" v = inl (PyStr (username_of user))).
Proof.
  intros Hr.
  destruct (p_authenticate provider username password) as [tokens|e] eqn:Ha.
  2:{ rewrite (authenticate_raise _ _ _ _ _ _ _ _ Ha) in Hr.
      destruct (except_Boto3Error_ClientError e); simpl in Hr; [|discriminate].
      by apply handle_error_response_not_user in Hr. }
  destruct (p_get_user_attributes provider username tokens) as [L|e] eqn:Hg.
  2:{ rewrite (authenticate_fetch_raises _ _ _ _ _ _ _ _ _ Ha Hg) in Hr.
      discriminate. }
  revert Hr. rewrite (authenticate_accepted _ _ _ _ _ _ _ _ _ Ha Hg), get_user_obj_eq.
  destruct (row_target _ _ _ _) as [[force_insert base]|]; [|discriminate].
  destruct (assignable _ _); [|discriminate].
  destruct (store_row _ _ _ _ _ _) as [[key t']|e] eqn:Hs; [|discriminate].
  destruct (tokens_assignable user_class); [|discriminate].
  simpl. intros [= <-].
  apply store_row_returns in Hs as (cleaned & Hc & Hkey & Hfree & ->).
  assert (Hcol : columns user_class (user_attrs L) = user_attrs L).
  { apply columns_id. intros k v. apply user_attrs_fields. }
  rewrite Hcol in Hc.
  exists (delete "username" cleaned ∪ base). split; [|split; [|split]].
  - rewrite with_tokens_username. simpl. apply lookup_insert_eq.
  - intros k v HF Ht Hne. rewrite returned_user_field by done. intros Hk.
    destruct (clean_fields_Some _ _ _ _ _ _ Hc HF Hk) as (w & Hw & Hcw).
    exists w. split; [done|].
    apply lookup_union_Some_l. by rewrite lookup_delete_ne.
  - intros k HF Ht Hne. rewrite returned_user_field by done. intros Hk. simpl.
    apply lookup_union_r. rewrite lookup_delete_ne by done.
    rewrite (clean_fields_lookup _ _ _ _ k Hc), Hk. by case_decide.
  - rewrite with_tokens_username. simpl.
    unfold username_key in Hkey.
    destruct (cleaned !! "username") as [[| |s]|] eqn:Hu; try discriminate.
    + injection Hkey as <-. right.
      rewrite (clean_fields_lookup _ _ _ _ "username" Hc) in Hu.
      destruct (decide ("username" ∈ get_fields user_class)) as [HF|]; [|discriminate].
      destruct (user_attrs L !! "username") as [v|] eqn:Hv; [|discriminate].
      simpl in Hu. exists v. split.
      * rewrite <- Hv. apply (returned_user_field s base L tokens); [done|].
        unfold token_attribute_names. by rewrite !elem_of_cons, elem_of_nil;
          intros [?|[?|[?|[]]]].
      * by destruct (clean user_class "username" v) as [w|]; [injection Hu as ->|].
    + left. by injection Hkey.
Qed.


(** [CognitoBackend.authenticate] written out over the outcome of the
    method it extends. *)
Lemma authenticate_over_abstract username password st :
  (∃ user tokens st',
      abstract_authenticate username password st
        = (Return (Some (with_tokens user tokens)), st')
      ∧ authenticate username password st
        = (Return (Some (with_tokens user tokens)),
           set_session (bound_session tokens) st')
      ∧ p_authenticate provider username password = Return tokens)
  ∨ authenticate username password st = abstract_authenticate username password st
    ∧ ∀ user, (abstract_authenticate username password st).1 ≠ Return (Some user).
Proof.
  remember (authenticate username password st) as res eqn:Hres.
  unfold CognitoBackend_authenticate in Hres.
  unfold mbind at 1, M_bind at 1 in Hres.
  destruct (abstract_authenticate_result cognito_to_dict settings user_class provider
              username password st)
    as [(u & tokens & st' & E & Ha & Hs)|[E|(e & st' & E & _)]]; rewrite E in Hres.
  - left. exists u, tokens, st'. split; [done|]. split; [|done].
    destruct (with_tokens_getattr u tokens) as (G1 & G2 & G3).
    unfold mbind, M_bind, call in Hres. by rewrite G1, G2, G3 in Hres.
  - right. rewrite E. split; [done|]. by intros user.
  - right. rewrite E. split; [done|]. by intros user.
Qed.

(** X9: storing the tokens changes neither the outcome of the
    authentication nor the user table nor the queued messages:
    [CognitoBackend.authenticate] returns what
    [AbstractCognitoBackend.authenticate] returns and leaves the same
    table. *)
Theorem session_binder_transparent username password st :
  (CognitoBackend_authenticate cognito_to_dict settings user_class provider
     username password st).1
    = (AbstractCognitoBackend_authenticate cognito_to_dict settings user_class provider
         username password st).1
  ∧ users (CognitoBackend_authenticate cognito_to_dict settings user_class provider
             username password st).2
    = users (AbstractCognitoBackend_authenticate cognito_to_dict settings user_class provider
               username password st).2
  ∧ flash (CognitoBackend_authenticate cognito_to_dict settings user_class provider
             username password st).2
    = flash (AbstractCognitoBackend_authenticate cognito_to_dict settings user_class provider
               username password st).2.
Proof.
  destruct (authenticate_over_abstract username password st)
    as [(u & tokens & st' & E1 & E2 & _)|[E _]].
  - by rewrite E1, E2.
  - by rewrite E.
Qed.

(** X10: after a login that returned a user, the next request of the same
    session gets past [TokenMixin] exactly when the refresh token that the
    provider issued is not the empty string; an empty one is stored like
    any other and then counts as absent. *)
Theorem login_then_TokenMixin username password st user (next : M HttpResponse) :
  (authenticate username password st).1 = Return (Some user) →
  ∃ tokens,
    p_authenticate provider username password = Return tokens
    ∧ TokenMixin_dispatch next (next_request (authenticate username password st).2)
      = if bool_decide (refresh_token tokens = "")
        then (Return Denied, next_request (authenticate username password st).2)
        else next (next_request (authenticate username password st).2).
Proof.
  intros Hr.
  destruct (authenticate_over_abstract username password st)
    as [(u & tokens & st' & E1 & E2 & Ha)|[E Hno]].
  - exists tokens. split; [done|]. rewrite E2. simpl.
    unfold TokenMixin_dispatch, session_get, gets, mbind, M_bind. simpl.
    rewrite lookup_insert_eq. simpl.
    by destruct (bool_decide (refresh_token tokens = "")).
  - rewrite E in Hr. by apply Hno in Hr.
Qed.
End BackendUser.
(** X11: the profile view answers with a denial exactly when the user of
    the request is not logged in or the session has no true
    REFRESH_TOKEN; a denial leaves the state as it was, whatever the
    settings hold and whatever the provider would have answered. *)
Theorem ProfileView_denied_iff
    (cognito_to_dict : list (string * string) → gmap string string → attrs)
    (settings : Settings) (provider : Provider)
    (get_cognito : M (string * Tokens)) (is_authenticated : bool) (st : State) :
  ((ProfileView_dispatch cognito_to_dict settings provider get_cognito
      is_authenticated st).1 = Return Denied
   ↔ is_authenticated = false
     ∨ truthy_opt (cache (session st) !! "REFRESH_TOKEN") = false)
  ∧ ((ProfileView_dispatch cognito_to_dict settings provider get_cognito
        is_authenticated st).1 = Return Denied →
     (ProfileView_dispatch cognito_to_dict settings provider get_cognito
        is_authenticated st).2 = st).
Proof.
  destruct is_authenticated.
  - destruct (truthy_opt (cache (session st) !! "REFRESH_TOKEN")) eqn:Ht.
    + assert (Hno : (ProfileView_dispatch cognito_to_dict settings provider
                       get_cognito true st).1 ≠ Return Denied).
      { unfold ProfileView_dispatch, LoginRequiredMixin_dispatch,
          TokenMixin_dispatch, session_get, gets, GetUserMixin_get_user,
          mbind, M_bind, call. simpl. rewrite Ht. simpl.
        destruct (get_cognito st) as [[[u t]|e] st']; [|discriminate].
        destruct (COGNITO_ATTR_MAPPING settings); [|discriminate].
        destruct (p_get_user_attributes provider u t); discriminate. }
      split; [|done]. split; [done|]. intros [?|?]; discriminate.
    + rewrite ProfileView_dispatch_denies by done. split; [|done].
      split; [by right|done].
  - split; [|done]. split; [by left|done].
Qed.

(** * Further properties of the views and of [register] *)

(** The names that [SignUpView.form_valid] takes out of the cleaned data. *)
Lemma signup_sent_lookup (cleaned_data : gmap string string)
    (first_name last_name : string) (k : string) :
  (PyStr <$> <["family_name" := last_name]>
     (delete "last_name"
        (<["given_name" := first_name]>
           (delete "first_name"
              (delete "password2"
                 (delete "password1" (delete "username" cleaned_data))))))) !! k
  = if decide (k = "family_name") then Some (PyStr last_name)
    else if decide (k = "last_name") then None
    else if decide (k = "given_name") then Some (PyStr first_name)
    else if decide (k ∈ ["first_name"; "password2"; "password1"; "username"])
         then None
         else PyStr <$> (cleaned_data !! k).
Proof.
  rewrite lookup_fmap.
  destruct (decide (k = "family_name")) as [->|H1].
  { by rewrite lookup_insert_eq. }
  rewrite lookup_insert_ne by done.
  destruct (decide (k = "last_name")) as [->|H2].
  { by rewrite lookup_delete_eq. }
  rewrite lookup_delete_ne by done.
  destruct (decide (k = "given_name")) as [->|H3].
  { by rewrite lookup_insert_eq. }
  rewrite lookup_insert_ne by done.
  destruct (decide (k ∈ ["first_name"; "password2"; "password1"; "username"]))
    as [Hin|Hin].
  - rewrite !lookup_delete.
    repeat (apply elem_of_cons in Hin as [->|Hin];
            [repeat case_decide; done|]).
    by apply elem_of_nil in Hin.
  - rewrite !lookup_delete_ne; [done|..]; intros <-; apply Hin;
      repeat constructor.
Qed.

Lemma SignUpView_form_valid_eq (provider : Provider)
    (cleaned_data : gmap string string) (st : State)
    (username password1 password2 first_name last_name : string) :
  cleaned_data !! "username" = Some username →
  cleaned_data !! "password1" = Some password1 →
  cleaned_data !! "password2" = Some password2 →
  cleaned_data !! "first_name" = Some first_name →
  cleaned_data !! "last_name" = Some last_name →
  SignUpView_form_valid provider cleaned_data st =
    match p_register provider username password1
            (PyStr <$> <["family_name" := last_name]>
               (delete "last_name"
                  (<["given_name" := first_name]>
                     (delete "first_name"
                        (delete "password2"
                           (delete "password1" (delete "username" cleaned_data)))))))
    with
    | Return _ =>
        (Return (Redirect "dw:login"),
         add_flash "You have successfully signed up." st)
    | Raise e => (Raise e, st)
    end.
Proof.
  intros Hu Hp1 Hp2 Hfn Hln.
  unfold SignUpView_form_valid, mbind, M_bind, call, dict_pop.
  rewrite Hu.
  rewrite lookup_delete_ne, Hp1 by done.
  rewrite !lookup_delete_ne, Hp2 by done.
  rewrite !lookup_delete_ne, Hfn by done.
  rewrite lookup_insert_ne, !lookup_delete_ne, Hln by done.
  by destruct (p_register _ _ _ _).
Qed.

(** X12: for a form with its five required fields, the sign-up view calls
    the provider's [register] once, with the username and the first
    password of the form and with the remaining fields as attributes: the
    first and last name go under given_name and family_name, the username
    and both passwords are not among the attributes, every other field is
    passed as it is.  On success one message is queued and the client is
    sent to the login page; on an error of the provider no message is
    queued.  The user table and the session are untouched either way. *)
Theorem SignUpView_form_valid_sends (provider : Provider)
    (cleaned_data : gmap string string) (st : State)
    (username password1 password2 first_name last_name : string) :
  cleaned_data !! "username" = Some username →
  cleaned_data !! "password1" = Some password1 →
  cleaned_data !! "password2" = Some password2 →
  cleaned_data !! "first_name" = Some first_name →
  cleaned_data !! "last_name" = Some last_name →
  ∃ sent : attrs,
    SignUpView_form_valid provider cleaned_data st =
      match p_register provider username password1 sent with
      | Return _ =>
          (Return (Redirect "dw:login"),
           add_flash "You have successfully signed up." st)
      | Raise e => (Raise e, st)
      end
    ∧ sent !! "given_name" = Some (PyStr first_name)
    ∧ sent !! "family_name" = Some (PyStr last_name)
    ∧ (∀ k, k ∈ ["username"; "password1"; "password2"; "first_name"; "last_name"] →
         sent !! k = None)
    ∧ (∀ k, k ∉ ["username"; "password1"; "password2"; "first_name"; "last_name";
                 "given_name"; "family_name"] →
         sent !! k = PyStr <$> (cleaned_data !! k))
    ∧ users (SignUpView_form_valid provider cleaned_data st).2 = users st
    ∧ session (SignUpView_form_valid provider cleaned_data st).2 = session st.
Proof.
  intros Hu Hp1 Hp2 Hfn Hln.
  rewrite (SignUpView_form_valid_eq provider cleaned_data st _ _ _ _ _
             Hu Hp1 Hp2 Hfn Hln).
  eexists. split; [reflexivity|].
  split; [by rewrite signup_sent_lookup|].
  split; [by rewrite signup_sent_lookup|].
  split; [|split; [|split]].
  - intros k Hin. rewrite signup_sent_lookup.
    repeat (apply elem_of_cons in Hin as [->|Hin]; [done|]).
    by apply elem_of_nil in Hin.
  - intros k Hk. rewrite signup_sent_lookup.
    rewrite !decide_False; [done|..]; try (intros ->; apply Hk; repeat constructor).
    intros Hin. apply Hk.
    repeat (apply elem_of_cons in Hin as [->|Hin]; [repeat constructor|]).
    by apply elem_of_nil in Hin.
  - by destruct (p_register _ _ _ _).
  - by destruct (p_register _ _ _ _).
Qed.

(** X13: a form that lacks one of the five fields stops the sign-up view
    at the first missing one, in the order username, password1, password2,
    first_name, last_name, with a [KeyError] for it; the state is as it
    was, and the outcome does not depend on the provider. *)
Theorem SignUpView_form_valid_missing (provider : Provider)
    (cleaned_data : gmap string string) (st : State) :
  (cleaned_data !! "username" = None →
   SignUpView_form_valid provider cleaned_data st = (Raise (KeyError "username"), st))
  ∧ (is_Some (cleaned_data !! "username") →
     cleaned_data !! "password1" = None →
     SignUpView_form_valid provider cleaned_data st = (Raise (KeyError "password1"), st))
  ∧ (is_Some (cleaned_data !! "username") →
     is_Some (cleaned_data !! "password1") →
     cleaned_data !! "password2" = None →
     SignUpView_form_valid provider cleaned_data st = (Raise (KeyError "password2"), st))
  ∧ (is_Some (cleaned_data !! "username") →
     is_Some (cleaned_data !! "password1") →
     is_Some (cleaned_data !! "password2") →
     cleaned_data !! "first_name" = None →
     SignUpView_form_valid provider cleaned_data st = (Raise (KeyError "first_name"), st))
  ∧ (is_Some (cleaned_data !! "username") →
     is_Some (cleaned_data !! "password1") →
     is_Some (cleaned_data !! "password2") →
     is_Some (cleaned_data !! "first_name") →
     cleaned_data !! "last_name" = None →
     SignUpView_form_valid provider cleaned_data st = (Raise (KeyError "last_name"), st)).
Proof.
  unfold SignUpView_form_valid, mbind, M_bind, call, dict_pop.
  split; [|split; [|split; [|split]]].
  - by intros ->.
  - intros [u ->] Hp1. by rewrite lookup_delete_ne, Hp1.
  - intros [u ->] [p1 Hp1] Hp2.
    rewrite lookup_delete_ne, Hp1 by done.
    by rewrite !lookup_delete_ne, Hp2.
  - intros [u ->] [p1 Hp1] [p2 Hp2] Hfn.
    rewrite lookup_delete_ne, Hp1 by done.
    rewrite !lookup_delete_ne, Hp2 by done.
    by rewrite !lookup_delete_ne, Hfn.
  - intros [u ->] [p1 Hp1] [p2 Hp2] [fn Hfn] Hln.
    rewrite lookup_delete_ne, Hp1 by done.
    rewrite !lookup_delete_ne, Hp2 by done.
    rewrite !lookup_delete_ne, Hfn by done.
    by rewrite lookup_insert_ne, !lookup_delete_ne, Hln.
Qed.

(** X14: the profile-update view reads [settings.COGNITO_ATTR_MAPPING]
    without a default: where the setting is not defined (the backend then
    works with its built-in mapping) the view raises an [AttributeError]
    once the client is bound, whatever the provider would answer.  Where it
    is defined the view hands the form and the mapping to the provider's
    [update_profile]; it queues its message and redirects to the profile
    page on success only. *)
Theorem UpdateProfileView_form_valid_outcomes (settings : Settings)
    (provider : Provider) (get_cognito : M (string * Tokens))
    (cleaned_data : gmap string string) (st st' : State) (c : string * Tokens) :
  get_cognito st = (Return c, st') →
  (COGNITO_ATTR_MAPPING settings = None →
     UpdateProfileView_form_valid settings provider get_cognito cleaned_data st
       = (Raise (AttributeError "COGNITO_ATTR_MAPPING"), st')
     ∧ CognitoUser_COGNITO_ATTR_MAPPING settings = default_attr_mapping)
  ∧ (∀ attr_map, COGNITO_ATTR_MAPPING settings = Some attr_map →
       UpdateProfileView_form_valid settings provider get_cognito cleaned_data st
       = match p_update_profile provider (PyStr <$> cleaned_data) attr_map with
         | Return _ =>
             (Return (Redirect "dw:profile"),
              add_flash "You have successfully updated your profile." st')
         | Raise e => (Raise e, st')
         end).
Proof.
  intros Hc.
  unfold UpdateProfileView_form_valid, CognitoUser_COGNITO_ATTR_MAPPING,
    mbind, M_bind, call.
  rewrite Hc. split.
  - by intros ->.
  - intros attr_map ->. by destruct (p_update_profile _ _ _).
Qed.

(** X15: [register] sends the provider the username, the password and the
    three attributes given_name, family_name and email, and never touches
    the state.  It returns the provider's response when there is one; it
    returns [None] exactly when the provider raised an error with one of
    the two suppressed codes; and a [Boto3Error] of the provider comes out
    as an [AttributeError], as in [authenticate]. *)
Theorem register_outcomes (provider : Provider)
    (username password email first_name last_name : string) (st : State) :
  (CognitoBackend_register provider username password email first_name last_name st).2
    = st
  ∧ (∀ response,
       p_register provider username password
         (register_attributes email first_name last_name) = Return response →
       (CognitoBackend_register provider username password email first_name
          last_name st).1 = Return (Some response))
  ∧ ((CognitoBackend_register provider username password email first_name
        last_name st).1 = Return None
     ↔ ∃ e kind,
         p_register provider username password
           (register_attributes email first_name last_name) = Raise e
         ∧ error_kind e = Some kind ∧ suppressed kind = true)
  ∧ (∀ msg,
       p_register provider username password
         (register_attributes email first_name last_name) = Raise (Boto3Error msg) →
       (CognitoBackend_register provider username password email first_name
          last_name st).1 = Raise (AttributeError "response")).
Proof.
  unfold CognitoBackend_register, try_except, call, register_attributes.
  destruct (p_register provider username password _) as [response|e] eqn:Hp.
  - split; [done|]. split; [by intros ? [= <-]|]. split; [|by intros msg].
    split; [discriminate|]. by intros (e & kind & ? & _).
  - split; [by destruct (except_Boto3Error_ClientError e)|].
    split; [by intros response|]. split.
    + split.
      * intros Hr. exists e.
        destruct (except_Boto3Error_ClientError e); simpl in Hr; [|discriminate].
        destruct (error_kind e) as [kind|] eqn:Hk.
        -- exists kind. split; [done|]. split; [done|].
           rewrite (handle_error_response_kind _ _ _ Hk) in Hr.
           unfold suppressed. by case_bool_decide.
        -- destruct (handle_error_response_no_kind attrs e Hk) as [E|[E|E]];
             rewrite E in Hr; discriminate.
      * intros (e0 & kind & [= <-] & Hk & Hs).
        destruct (two_tier_handle_error_response attrs e kind Hk) as [Hc Hh].
        rewrite Hc. simpl. by rewrite Hh, Hs.
    + by intros msg [= ->].
Qed.


(** ** The further properties at concrete requests *)


Lemma authenticate_frame_witness :
  users (AbstractCognitoBackend_authenticate spec_cognito_to_dict default_settings
           auth_User (accepting_provider example_tokens example_attributes)
           "bob" "pw" alice_state).2 !! "alice" = Some alice_row
  ∧ dom (users alice_state)
    ⊆ dom (users (AbstractCognitoBackend_authenticate spec_cognito_to_dict
                    default_settings auth_User
                    (accepting_provider example_tokens example_attributes)
                    "bob" "pw" alice_state).2).
Proof.
  destruct (authenticate_frame spec_cognito_to_dict default_settings auth_User
              (accepting_provider example_tokens example_attributes)
              "bob" "pw" alice_state)
    as (_ & _ & _ & _ & Hno).
  destruct Hno as [Hother Hdom].
  { intros tokens L _ [= <-]. vm_compute. reflexivity. }
  split; [|exact Hdom].
  rewrite Hother by discriminate. vm_compute. reflexivity.
Defined.



(** The instance keeps the text that the provider sent, the row holds the
    boolean that the column stores for it. *)
Lemma authenticate_user_in_sync_witness :
  ∃ user row,
    (AbstractCognitoBackend_authenticate spec_cognito_to_dict default_settings
       auth_User (accepting_provider example_tokens [("is_active", "1")])
       "alice" "pw" alice_state).1 = Return (Some user)
    ∧ users (AbstractCognitoBackend_authenticate spec_cognito_to_dict default_settings
               auth_User (accepting_provider example_tokens [("is_active", "1")])
               "alice" "pw" alice_state).2 !! username_of user = Some row
    ∧ obj_dict user !! "is_active" = Some (PyStr "1")
    ∧ row !! "is_active" = Some (PyBool true)
    ∧ row !! "email" = Some (PyStr "old@x.com").
Proof.
  assert (Hr : ∃ user,
             (AbstractCognitoBackend_authenticate spec_cognito_to_dict
                default_settings auth_User
                (accepting_provider example_tokens [("is_active", "1")])
                "alice" "pw" alice_state).1 = Return (Some user)
             ∧ obj_dict user !! "is_active" = Some (PyStr "1")
             ∧ obj_dict user !! "email" = None
             ∧ loaded user !! "email" = Some (PyStr "old@x.com")).
  { eexists. split; [vm_compute; reflexivity|]. vm_compute. done. }
  destruct Hr as (user & Hr & Hactive & Hemail & Hloaded).
  destruct (authenticate_user_in_sync spec_cognito_to_dict default_settings auth_User
              (accepting_provider example_tokens [("is_active", "1")])
              "alice" "pw" alice_state user Hr)
    as (row & Hrow & Hset & Hunset & _).
  exists user, row. split; [exact Hr|]. split; [exact Hrow|]. split; [exact Hactive|].
  split.
  - destruct (Hset "is_active" (PyStr "1")) as (w & Hw & Hcol);
      [apply (bool_decide_unpack _); vm_compute; exact I
      |intros Hin; apply (bool_decide_pack _) in Hin; vm_compute in Hin; exact Hin
      |discriminate|exact Hactive|].
    vm_compute in Hw. injection Hw as <-. exact Hcol.
  - rewrite Hunset;
      [exact Hloaded
      |apply (bool_decide_unpack _); vm_compute; exact I
      |intros Hin; apply (bool_decide_pack _) in Hin; vm_compute in Hin; exact Hin
      |discriminate|exact Hemail].
Defined.


Lemma login_then_TokenMixin_witness :
  TokenMixin_dispatch (mret (Page "warrant/profile.html" ∅))
    (next_request
       (CognitoBackend_authenticate spec_cognito_to_dict default_settings auth_User
          (accepting_provider example_tokens example_attributes)
          "alice" "pw" empty_state).2)
  = (Return (Page "warrant/profile.html" ∅),
     next_request
       (CognitoBackend_authenticate spec_cognito_to_dict default_settings auth_User
          (accepting_provider example_tokens example_attributes)
          "alice" "pw" empty_state).2).
Proof.
  edestruct (login_then_TokenMixin spec_cognito_to_dict default_settings auth_User
               (accepting_provider example_tokens example_attributes)
               "alice" "pw" empty_state)
    as (tokens & Ha & Ht).
  { vm_compute. reflexivity. }
  injection Ha as <-. rewrite Ht. reflexivity.
Defined.

Lemma SignUpView_form_valid_sends_witness :
  SignUpView_form_valid (accepting_provider example_tokens example_attributes)
    signup_form empty_state
  = (Return (Redirect "dw:login"),
     add_flash "You have successfully signed up." empty_state).
Proof.
  destruct (SignUpView_form_valid_sends
              (accepting_provider example_tokens example_attributes)
              signup_form empty_state "alice" "s3cret-pw" "s3cret-pw" "A" "B"
              eq_refl eq_refl eq_refl eq_refl eq_refl)
    as (sent & E & _).
  rewrite E. reflexivity.
Defined.

Lemma UpdateProfileView_form_valid_outcomes_witness :
  UpdateProfileView_form_valid default_settings
    (accepting_provider example_tokens example_attributes)
    (mret ("alice", example_tokens)) signup_form empty_state
  = (Raise (AttributeError "COGNITO_ATTR_MAPPING"), empty_state).
Proof.
  apply (UpdateProfileView_form_valid_outcomes default_settings
           (accepting_provider example_tokens example_attributes)
           (mret ("alice", example_tokens)) signup_form empty_state empty_state
           ("alice", example_tokens) eq_refl).
  reflexivity.
Defined.
